(** * unified-types-declarator: the declaration-synthesis engine

    A shallow embedding of [UnifiedTypesGenerator] (the class of the current
    [index.ts], the revision with [importMap] and [generateTypeImport]) and
    the properties its specification states about it.

    The TypeScript compiler API is the external parser: a node is modelled
    by the fields the generator reads from it, and [getText (sourceFile)] by
    the verbatim text stored in the node. *)

From Stdlib Require Import Ascii String Bool Arith Lia.
From stdpp Require Import gmap strings list fin_maps.

(** ** JavaScript built-ins used by the generator *)

Module JS.

(** The line feed of the template literals. *)
Definition LF : string := String "010"%char "".

(** Truthiness of a string: only the empty string is falsy. *)
Definition truthy (s : string) : bool :=
  match s with
  | EmptyString => false
  | String _ _ => true
  end.

(** [s.startsWith (p)]. *)
Fixpoint startsWith (s p : string) {struct p} : bool :=
  match p, s with
  | EmptyString, _ => true
  | String _ _, EmptyString => false
  | String a p', String c s' => Ascii.eqb c a && startsWith s' p'
  end.

(** [s.includes (p)]: [p] occurs in [s] at some position. *)
Fixpoint includes (s p : string) : bool :=
  startsWith s p ||
  match s with
  | EmptyString => false
  | String _ s' => includes s' p
  end.

(** [s.split (sep)] for a non-empty separator: the scan runs left to right;
    [skip] counts the characters of a matched separator still to pass and
    [cur] is the piece being collected. *)
Fixpoint splitFrom (sep : string) (skip : nat) (cur s : string) : list string :=
  match s with
  | EmptyString => [cur]
  | String c s' =>
      match skip with
      | S k => splitFrom sep k cur s'
      | O =>
          if startsWith s sep
          then cur :: splitFrom sep (String.length sep - 1) "" s'
          else splitFrom sep 0 (cur +:+ String c "") s'
      end
  end.

Definition split (s sep : string) : list string := splitFrom sep 0 "" s.

(** [a.at (-1)] on the result of [split], which is never empty. *)
Definition at_last (a : list string) : string := List.last a "".

(** [a.join (sep)]. *)
Fixpoint join (sep : string) (a : list string) : string :=
  match a with
  | [] => ""
  | [x] => x
  | x :: rest => x +:+ sep +:+ join sep rest
  end.

(** [a.toString ()] of an array of strings. *)
Definition toString (a : list string) : string := join "," a.

(** [a.find (p)]. *)
Fixpoint find {A} (p : A -> bool) (a : list A) : option A :=
  match a with
  | [] => None
  | x :: rest => if p x then Some x else find p rest
  end.

(** Truthiness of the result of [find] over strings: [undefined] and the
    empty string are falsy. *)
Definition truthy_found (r : option string) : bool :=
  match r with
  | None => false
  | Some s => truthy s
  end.

(** A [Set<string>]: its elements in insertion order, without duplicates. *)
Definition has (s : list string) (x : string) : bool :=
  existsb (String.eqb x) s.

Definition add (s : list string) (x : string) : list string :=
  if has s x then s else s ++ [x].

(** [new Set (a)]. *)
Definition newSet (a : list string) : list string := fold_left add a [].

(** What the generator throws. *)
Inductive Exception :=
| Error (message : string)
| TypeError (message : string)
| SystemError (code : string).

Inductive Result (A : Type) :=
| Ok (a : A)
| Throw (e : Exception).
Arguments Ok {A} a.
Arguments Throw {A} e.

End JS.
Import JS.

(** ** The syntax tree, as the generator reads it *)

Record JSDoc := { jsDoc_fullText : string }.

(** A binding name: an identifier, or an object or array binding pattern
    with its elements. *)
Inductive BindingName :=
| Identifier (text : string)
| BindingPattern (text : string) (elements : list string).

Definition bindingText (n : BindingName) : string :=
  match n with
  | Identifier t => t
  | BindingPattern t _ => t
  end.

(** [name.elements]: undefined on an identifier. *)
Definition bindingElements (n : BindingName) : option (list string) :=
  match n with
  | Identifier _ => None
  | BindingPattern _ es => Some es
  end.

Record ParameterDeclaration := {
  param_name : BindingName;
  param_type : option string;
  param_questionToken : bool;
  param_initializer : option string;
  param_jsDoc : list JSDoc
}.

(** A property signature or declaration. *)
Record Property := {
  prop_name : string;
  prop_type : option string;
  prop_jsDoc : list JSDoc
}.

(** A method signature or declaration. *)
Record Method := {
  method_name : string;
  method_typeParameters : list string;
  method_parameters : list ParameterDeclaration;
  method_type : option string;
  method_jsDoc : list JSDoc
}.

Record Constructor := {
  ctor_typeParameters : list string;
  ctor_parameters : list ParameterDeclaration;
  ctor_jsDoc : list JSDoc
}.

(** Members of an interface or of a type literal. *)
Inductive TypeElement :=
| PropertySignature (p : Property)
| MethodSignature (m : Method)
| OtherTypeElement.

Inductive ClassElement :=
| PropertyDeclaration (p : Property)
| MethodDeclaration (m : Method)
| ConstructorDeclaration (c : Constructor)
| OtherClassElement.

Inductive TypeNode :=
| FunctionTypeNode (text : string) (parameters : list ParameterDeclaration)
                   (type : TypeNode)
| TypeLiteralNode (text : string) (members : list TypeElement)
| OtherTypeNode (text : string).

Record EnumMember := {
  member_name : string;
  member_initializer : option string
}.

Record EnumDeclaration := {
  enum_name : string;
  enum_members : list EnumMember
}.

Record InterfaceDeclaration := {
  iface_name : string;
  iface_typeParameters : list string;
  iface_members : list TypeElement
}.

Record ClassDeclaration := {
  class_name : option string;
  class_typeParameters : list string;
  class_members : list ClassElement
}.

Record TypeAliasDeclaration := {
  alias_name : string;
  alias_typeParameters : list string;
  alias_type : TypeNode
}.

Record FunctionDeclaration := {
  func_name : option string;
  func_parameters : list ParameterDeclaration;
  func_type : option string
}.

Inductive Modifier := ExportKeyword | DeclareKeyword | DefaultKeyword.

Record VariableDeclaration := {
  decl_name : BindingName;
  decl_text : string
}.

(** [stmt_modifiers]: the parser leaves [modifiers] undefined on a statement
    without modifiers and never builds an empty array; [[]] is undefined. *)
Record VariableStatement := {
  stmt_modifiers : list Modifier;
  stmt_declarations : list VariableDeclaration;
  stmt_jsDoc : list JSDoc
}.

Inductive NamedBindings :=
| NamedImports (elements : list string)
| NamespaceImport (name : string).

Record ImportClause := { clause_namedBindings : option NamedBindings }.

(** [import_moduleSpecifier]: the text of the string literal, or [None] when
    the specifier is not a string literal. *)
Record ImportDeclaration := {
  import_moduleSpecifier : option string;
  import_importClause : option ImportClause
}.

(** A child of the source file. *)
Inductive Node :=
| NEnum (e : EnumDeclaration)
| NClass (c : ClassDeclaration)
| NInterface (i : InterfaceDeclaration)
| NTypeAlias (t : TypeAliasDeclaration)
| NFunction (f : FunctionDeclaration)
| NMethod (m : Method)
| NVariableStatement (v : VariableStatement)
| NImport (i : ImportDeclaration)
| NOther.

Definition SourceFile := list Node.

(** ** Signature formatter *)

(** [getJsDocComment]: the full text of the attached documentation blocks,
    followed by a line feed when there is any. *)
Definition getJsDocComment (jsDocs : list JSDoc) : string :=
  let comment := fold_left (fun comment jsDoc => comment +:+ jsDoc_fullText jsDoc) jsDocs "" in
  if truthy comment then comment +:+ LF else "".

(** The locals [name], [type] and [optional] of the callback of
    [getParametersSignature]. *)
Definition parameterName (parameter : ParameterDeclaration) : string :=
  let name := bindingText (param_name parameter) in
  match bindingElements (param_name parameter) with
  | Some elements => if 1 <? length elements then "param" else name
  | None => name
  end.

Definition parameterType (parameter : ParameterDeclaration) : string :=
  match param_type parameter with
  | Some type => type
  | None => "unknown"
  end.

Definition parameterOptional (parameter : ParameterDeclaration) : string :=
  if param_questionToken parameter || bool_decide (is_Some (param_initializer parameter))
  then "?" else "".

Definition parameterFragment (parameter : ParameterDeclaration) : string :=
  let comment := getJsDocComment (param_jsDoc parameter) in
  comment +:+ parameterName parameter +:+ parameterOptional parameter +:+ ": "
          +:+ parameterType parameter.

Definition getParametersSignature (parameters : list ParameterDeclaration) : string :=
  join ", " (map parameterFragment parameters).

Definition getPropertySignature (member : Property) : string :=
  let propertyName := prop_name member in
  let propertyType := match prop_type member with Some t => t | None => "unknown" end in
  let comment := getJsDocComment (prop_jsDoc member) in
  LF +:+ "  " +:+ comment +:+ "  " +:+ propertyName +:+ ": " +:+ propertyType +:+ LF.

Definition getGenerics (typeParameters : list string) : string :=
  fold_left (fun genericTypes param =>
               genericTypes +:+ (if negb (truthy genericTypes) then param else ", " +:+ param))
            typeParameters "".

(** [generic ? `<${generic}>` : ''] *)
Definition angle (generic : string) : string :=
  if truthy generic then "<" +:+ generic +:+ ">" else "".

(** ** Declaration emitters *)

Definition generateTypeEnumeration (node : EnumDeclaration) : string :=
  let membersInfo :=
    fold_left (fun membersInfo member =>
                 let memberName := member_name member in
                 let memberValue := match member_initializer member with
                                    | Some t => t
                                    | None => ""
                                    end in
                 membersInfo +:+ "  " +:+ memberName +:+ "=" +:+ memberValue +:+ "," +:+ LF)
              (enum_members node) "" in
  "" +:+ "declare enum " +:+ enum_name node +:+ " {" +:+ LF +:+ membersInfo +:+ "}" +:+ LF +:+ LF.

Definition generateTypeMethod (node : Method) : string :=
  let genericTypes := getGenerics (method_typeParameters node) in
  let methodSignature := match method_type node with Some t => t | None => "void" end in
  let parameters := getParametersSignature (method_parameters node) in
  let comment := getJsDocComment (method_jsDoc node) in
  let methodName := method_name node in
  let genericTypes := angle genericTypes in
  "  " +:+ comment +:+ methodName +:+ genericTypes +:+ "(" +:+ parameters +:+ "): "
       +:+ methodSignature +:+ LF.

(** The method-signature line that [generateTypeInterface] builds itself. *)
Definition interfaceMethodLine (member : Method) : string :=
  let methodName := method_name member in
  let parameters := getParametersSignature (method_parameters member) in
  let returnType := match method_type member with Some t => t | None => "unknown" end in
  "  " +:+ methodName +:+ "(" +:+ parameters +:+ "): " +:+ returnType +:+ LF.

Definition generateTypeInterface (node : InterfaceDeclaration) : string :=
  let genericTypes := getGenerics (iface_typeParameters node) in
  let membersInfo :=
    fold_left (fun membersInfo member =>
                 match member with
                 | PropertySignature p => membersInfo +:+ getPropertySignature p
                 | MethodSignature m => membersInfo +:+ interfaceMethodLine m
                 | OtherTypeElement => membersInfo
                 end)
              (iface_members node) "" in
  let genericTypes := angle genericTypes in
  "" +:+ "declare interface " +:+ iface_name node +:+ " " +:+ genericTypes +:+ " {" +:+ LF
     +:+ membersInfo +:+ "}" +:+ LF +:+ LF.

(** The method line of a type-literal alias. *)
Definition literalMethodLine (member : Method) : string :=
  let methodName := method_name member in
  let parameters := getParametersSignature (method_parameters member) in
  let returnType := match method_type member with Some t => t | None => "unknown" end in
  "  " +:+ methodName +:+ ": (" +:+ parameters +:+ ") => " +:+ returnType.

Definition generateTypeType (node : TypeAliasDeclaration) : string :=
  let generic := angle (getGenerics (alias_typeParameters node)) in
  let declaration := "declare type " +:+ alias_name node +:+ generic +:+ " = " in
  let '(declaration, membersInfo) :=
    match alias_type node with
    | FunctionTypeNode _ parameters returnTypeDeclaration =>
        let parametersDeclaration := getParametersSignature parameters in
        let declaration :=
          if truthy parametersDeclaration
          then declaration +:+ "(" +:+ parametersDeclaration +:+ ")"
          else declaration in
        match returnTypeDeclaration with
        | TypeLiteralNode _ members =>
            let membersInfo :=
              fold_left (fun membersInfo member =>
                           match member with
                           | MethodSignature m => membersInfo +:+ generateTypeMethod m
                           | PropertySignature p => membersInfo +:+ getPropertySignature p
                           | OtherTypeElement => membersInfo
                           end) members "" in
            (declaration, " => {" +:+ LF +:+ membersInfo +:+ "}")
        | _ => (declaration, "")
        end
    | TypeLiteralNode _ members =>
        let membersInfo :=
          fold_left (fun membersInfo member =>
                       match member with
                       | MethodSignature m => membersInfo +:+ literalMethodLine m
                       | PropertySignature p => membersInfo +:+ getPropertySignature p
                       | OtherTypeElement => membersInfo
                       end) members "" in
        (declaration, "{" +:+ LF +:+ membersInfo +:+ "}")
    | OtherTypeNode text => (declaration, text)
    end in
  declaration +:+ membersInfo +:+ LF +:+ LF.

Definition generateVariableDeclarationType (node : VariableStatement) : string :=
  let declarationReturn := "declare const " in
  let comment := getJsDocComment (stmt_jsDoc node) in
  match stmt_modifiers node with
  | [] => ""
  | DeclareKeyword :: _ =>
      let declarationReturn :=
        fold_left (fun declarationReturn declaration =>
                     match decl_name declaration with
                     | Identifier _ => declarationReturn +:+ decl_text declaration
                     | BindingPattern _ _ => declarationReturn
                     end)
                  (stmt_declarations node) declarationReturn in
      comment +:+ declarationReturn +:+ LF +:+ LF
  | _ :: _ => ""
  end.

Definition generateTypeFunction (node : FunctionDeclaration) : string :=
  match func_name node with
  | None => ""
  | Some text =>
      if negb (truthy text) then "" else
      let functionName := text in
      let parameters := getParametersSignature (func_parameters node) in
      let returnType := match func_type node with Some t => t | None => "void" end in
      "declare function " +:+ functionName +:+ "(" +:+ parameters +:+ "):" +:+ returnType
        +:+ LF +:+ LF
  end.

(** The constructor line that [generateClassType] builds itself. *)
Definition constructorLine (member : Constructor) : string :=
  let parameters := getParametersSignature (ctor_parameters member) in
  let comment := getJsDocComment (ctor_jsDoc member) in
  let genericTypes :=
    fold_left (fun genericTypes param =>
                 genericTypes +:+ (if truthy genericTypes then ", " +:+ param else param))
              (ctor_typeParameters member) "" in
  let genericTypes := angle genericTypes in
  "  " +:+ comment +:+ "constructor" +:+ genericTypes +:+ "(" +:+ parameters +:+ ")" +:+ LF.

Definition generateClassType (node : ClassDeclaration) : string :=
  let genericClass := getGenerics (class_typeParameters node) in
  match class_name node with
  | None => ""
  | Some text =>
      let membersInfo :=
        fold_left (fun membersInfo member =>
                     match member with
                     | PropertyDeclaration p => membersInfo +:+ getPropertySignature p
                     | MethodDeclaration m => membersInfo +:+ generateTypeMethod m
                     | ConstructorDeclaration c => membersInfo +:+ constructorLine c
                     | OtherClassElement => membersInfo
                     end)
                  (class_members node) "" in
      let genericClass := angle genericClass in
      "" +:+ "declare class " +:+ text +:+ genericClass +:+ " {" +:+ LF +:+ LF
         +:+ membersInfo +:+ "}" +:+ LF
  end.

(** ** Import deduplication *)

(** The body of the loop of [generateTypeImport] over the elements of a
    named import whose module path is in [importMap] already: [recorded] is
    the set of the module path, [declaration] the line built so far. *)
Definition recordElement (state : list string * string) (element : string)
    : list string * string :=
  let '(recorded, declaration) := state in
  if negb (has recorded element)
  then (add recorded element,
        if truthy declaration
        then declaration +:+ ", " +:+ element
        else "import { " +:+ element)
  else (recorded, declaration).

(** [generateTypeImport], with the generator's [importMap] passed in and
    returned. The sets stored in the map are mutated in place by the source;
    here the entry of the module path is rewritten. *)
Definition generateTypeImport (node : ImportDeclaration)
    (importMap : gmap string (list string)) : string * gmap string (list string) :=
  match import_importClause node, import_moduleSpecifier node with
  | Some importClause, Some modulePath =>
      if truthy modulePath && negb (startsWith modulePath ".")
         && negb (startsWith modulePath "/")
      then
        match clause_namedBindings importClause with
        | Some (NamedImports elements) =>
            match importMap !! modulePath with
            | Some recorded =>
                let '(recorded, declaration) :=
                  fold_left recordElement elements (recorded, "") in
                let declaration :=
                  if truthy declaration
                  then declaration +:+ "} from '" +:+ modulePath +:+ "'" +:+ LF +:+ LF
                  else declaration in
                (declaration, <[modulePath := recorded]> importMap)
            | None =>
                let recorded := newSet elements in
                ("import {" +:+ toString recorded +:+ "} from '" +:+ modulePath +:+ "'"
                            +:+ LF +:+ LF,
                 <[modulePath := recorded]> importMap)
            end
        | _ => ("", importMap)
        end
      else ("", importMap)
  | _, _ => ("", importMap)
  end.

(** ** Traversal *)

Inductive Emitter :=
| EnumEmitter | ClassEmitter | InterfaceEmitter | TypeAliasEmitter
| FunctionEmitter | MethodEmitter | VariableStatementEmitter.

(** One [if (ts.isX (node) && node.name) declarations += this.generateX (node)]
    of the callback of [forEachChild]: the emitter it calls and the text the
    call returns, when the condition holds. The names of enums, interfaces,
    type aliases and methods are never undefined; those of classes and
    functions are on [export default] declarations. *)
Definition enumBranch (node : Node) : option (Emitter * string) :=
  match node with
  | NEnum e => Some (EnumEmitter, generateTypeEnumeration e)
  | _ => None
  end.

Definition classBranch (node : Node) : option (Emitter * string) :=
  match node with
  | NClass c => if bool_decide (is_Some (class_name c))
                then Some (ClassEmitter, generateClassType c) else None
  | _ => None
  end.

Definition interfaceBranch (node : Node) : option (Emitter * string) :=
  match node with
  | NInterface i => Some (InterfaceEmitter, generateTypeInterface i)
  | _ => None
  end.

Definition typeAliasBranch (node : Node) : option (Emitter * string) :=
  match node with
  | NTypeAlias t => Some (TypeAliasEmitter, generateTypeType t)
  | _ => None
  end.

Definition functionBranch (node : Node) : option (Emitter * string) :=
  match node with
  | NFunction f => if bool_decide (is_Some (func_name f))
                   then Some (FunctionEmitter, generateTypeFunction f) else None
  | _ => None
  end.

Definition methodBranch (node : Node) : option (Emitter * string) :=
  match node with
  | NMethod m => Some (MethodEmitter, generateTypeMethod m)
  | _ => None
  end.

Definition variableStatementBranch (node : Node) : option (Emitter * string) :=
  match node with
  | NVariableStatement v => Some (VariableStatementEmitter, generateVariableDeclarationType v)
  | _ => None
  end.

(** [if ... else if ...]: the second is tried only when the first does not
    apply. *)
Definition orElse {A B} (first rest : A -> option B) (a : A) : option B :=
  match first a with
  | Some b => Some b
  | None => rest a
  end.

(** The chain of the callback. Its last branch, for import declarations, has
    its call commented out and emits nothing. *)
Definition dispatch : Node -> option (Emitter * string) :=
  orElse enumBranch
    (orElse classBranch
      (orElse interfaceBranch
        (orElse typeAliasBranch
          (orElse functionBranch
            (orElse methodBranch
              (orElse variableStatementBranch (fun _ => None))))))).

(** The callback of [forEachChild] on the running [declarations]. *)
Definition visit (declarations : string) (node : Node) : string :=
  match dispatch node with
  | Some (_, text) => declarations +:+ text
  | None => declarations
  end.

(** [generateTypeDeclarationFromFile], from the parsed source file on. *)
Definition generateTypeDeclarations (sourceFile : SourceFile) : option string :=
  let declarations := fold_left visit sourceFile "" in
  if truthy declarations then Some declarations else None.

(** ** Configuration, file selection and the run *)

Record CompilerOptions := {
  rootDir : option string;
  outFile : option string
}.

(** The parsed configuration document. [exclude] is read by nothing. *)
Record TsConfig := {
  compilerOptions : option CompilerOptions;
  include : option (list string);
  exclude : option (list string)
}.

Inductive Entry :=
| File (content : string)
| Directory.

(** The file system: the entry at each absolute path. *)
Abbreviation FileSystem := (gmap string Entry).

Definition existsSync (fs : FileSystem) (p : string) : bool :=
  bool_decide (is_Some (fs !! p)).

(** [fs.rmSync (p)] without options: removes a file, refuses a directory. *)
Definition rmSync (fs : FileSystem) (p : string) : Result FileSystem :=
  match fs !! p with
  | Some (File _) => Ok (delete p fs)
  | Some Directory => Throw (SystemError "ERR_FS_EISDIR")
  | None => Throw (SystemError "ENOENT")
  end.

(** The text of a path before its last [/], if it has one. *)
Fixpoint beforeLastSlash (p : string) : option string :=
  match p with
  | EmptyString => None
  | String c rest =>
      match beforeLastSlash rest with
      | Some directory => Some (String c directory)
      | None => if Ascii.eqb c "/" then Some "" else None
      end
  end.

(** The directory that holds the entry at a path: [/] for an entry of the
    root, [.] for a path without [/]. *)
Definition dirname (p : string) : string :=
  match beforeLastSlash p with
  | None => "."
  | Some EmptyString => "/"
  | Some directory => directory
  end.

(** [fs.writeFileSync (p, data)]: creates or replaces a file in a directory
    that exists; it creates no directory and replaces none. *)
Definition writeFileSync (fs : FileSystem) (p data : string) : Result FileSystem :=
  match fs !! p with
  | Some Directory => Throw (SystemError "EISDIR")
  | _ =>
      match fs !! dirname p with
      | Some Directory => Ok (<[p := File data]> fs)
      | Some (File _) => Throw (SystemError "ENOTDIR")
      | None => Throw (SystemError "ENOENT")
      end
  end.

(** The message of the [TypeError] of [path.resolve (cwd, undefined)]. *)
Definition invalidPathsArgument : string :=
  "The " +:+ String "034"%char "paths[1]" +:+ String "034"%char
    " argument must be of type string. Received undefined".

(** The reduction of an include pattern in [getFiles]:
    [includePath.split ('*.').at (-1)]. *)
Definition patternSuffix (includePath : string) : string :=
  at_last (split includePath "*.").

(** The filter of [getFiles]: the value of [patterns.find (...)] decides, by
    its truthiness, whether the file name is kept. *)
Definition selected (patterns : list string) (fileName : string) : bool :=
  truthy_found (find (fun pattern => includes fileName pattern) patterns).

Section Generator.

(** The fields set by the constructor. *)
Variable cwd : string.
Variable tsConfigPath : string.

(** External collaborators: [path.resolve] and [path.join], [JSON.parse]
    on the configuration text ([None] when it throws), the recursive
    [fs.readdirSync], and [ts.sys.readFile] followed by
    [ts.createSourceFile]. *)
Variable resolve : string -> string -> string.
Variable pathJoin : string -> string -> string.
Variable parseConfig : string -> option TsConfig.
Variable readdirSync : FileSystem -> string -> Result (list string).
Variable readSourceFile : FileSystem -> string -> Result SourceFile.

Definition rootDirError : Exception :=
  Error ("Expected rootDir option in " +:+ tsConfigPath +:+ " session compilerOptions").

Definition outFileError : Exception :=
  Error ("Expected outFile option in " +:+ tsConfigPath +:+ " session compilerOptions").

Definition getFiles (options : CompilerOptions) (include : option (list string))
    (fs : FileSystem) : Result (list string) :=
  match rootDir options with
  | None => Throw rootDirError
  | Some root =>
      if negb (truthy root) then Throw rootDirError else
      match readdirSync fs (resolve cwd root) with
      | Throw e => Throw e
      | Ok fileNames =>
          match include with
          | None => Throw (TypeError "Cannot read properties of undefined (reading 'map')")
          | Some include =>
              let patterns := map patternSuffix include in
              Ok (List.filter (selected patterns) fileNames)
          end
      end
  end.

(** [setTsConfig]: every failure is caught and logged, and leaves
    [tsConfigOptions] undefined. *)
Definition setTsConfig (fs : FileSystem) : option TsConfig :=
  match fs !! tsConfigPath with
  | Some (File content) => parseConfig content
  | _ => None
  end.

Definition generateTypeDeclarationFromFile (fs : FileSystem) (filePath : string)
    : Result (option string) :=
  match readSourceFile fs filePath with
  | Throw e => Throw e
  | Ok sourceFile => Ok (generateTypeDeclarations sourceFile)
  end.

(** The loop of [run] over the selected files. *)
Fixpoint generateAll (fs : FileSystem) (root : string) (files : list string)
    (outputContent : string) : Result string :=
  match files with
  | [] => Ok outputContent
  | file :: rest =>
      let filePath := pathJoin root file in
      match generateTypeDeclarationFromFile fs filePath with
      | Throw e => Throw e
      | Ok (Some data) => generateAll fs root rest (outputContent +:+ data +:+ LF)
      | Ok None => generateAll fs root rest outputContent
      end
  end.

(** [run]: what it throws, if anything, and the file system it leaves.
    Console output is left out. *)
Definition run (fs : FileSystem) : Result unit * FileSystem :=
  match setTsConfig fs with
  | None =>
      (Throw (TypeError "Cannot read properties of undefined (reading 'compilerOptions')"), fs)
  | Some tsConfigOptions =>
      match compilerOptions tsConfigOptions with
      | None =>
          (Throw (TypeError "Cannot read properties of undefined (reading 'outFile')"), fs)
      | Some options =>
          match outFile options with
          | None => (Throw (TypeError invalidPathsArgument), fs)
          | Some out =>
              let outputFile := resolve cwd out in
              match (if existsSync fs outputFile then rmSync fs outputFile else Ok fs) with
              | Throw e => (Throw e, fs)
              | Ok fs =>
                  if negb (truthy out) then (Throw outFileError, fs) else
                  match getFiles options (include tsConfigOptions) fs with
                  | Throw e => (Throw e, fs)
                  | Ok files =>
                      match generateAll fs (default "" (rootDir options)) files "" with
                      | Throw e => (Throw e, fs)
                      | Ok outputContent =>
                          match writeFileSync fs outputFile outputContent with
                          | Throw e => (Throw e, fs)
                          | Ok fs => (Ok tt, fs)
                          end
                      end
                  end
              end
          end
      end
  end.

End Generator.

(** ** The enum emitter of the earlier revision of [src/index.ts] *)

Module IndexTs.

(** [generateTypeEnumeration] as that revision has it: one line feed ends
    the declaration. *)
Definition generateTypeEnumeration (node : EnumDeclaration) : string :=
  let membersInfo :=
    fold_left (fun membersInfo member =>
                 let memberName := member_name member in
                 let memberValue := match member_initializer member with
                                    | Some t => t
                                    | None => ""
                                    end in
                 membersInfo +:+ "  " +:+ memberName +:+ "=" +:+ memberValue +:+ "," +:+ LF)
              (enum_members node) "" in
  "" +:+ "declare enum " +:+ enum_name node +:+ " {" +:+ LF +:+ membersInfo +:+ "}" +:+ LF.

End IndexTs.

(** ** Notions of the specification *)

(** [p] occurs in [s] as a substring. *)
Definition Occurs (p s : string) : Prop :=
  exists a b, s = a +:+ p +:+ b.

(** [suffix] is the text of [pattern] after its last [*.] token. *)
Definition AfterLastToken (pattern suffix : string) : Prop :=
  (exists prefix, pattern = prefix +:+ "*." +:+ suffix) /\ ~ Occurs "*." suffix.

(** The priority order of the traversal: Enum, Class, Interface, TypeAlias,
    Function, Method, VariableStatement. *)
Definition priority : list (Node -> option (Emitter * string)) :=
  [enumBranch; classBranch; interfaceBranch; typeAliasBranch;
   functionBranch; methodBranch; variableStatementBranch].

(** The first branch of a list that applies to the node. *)
Fixpoint firstMatch (branches : list (Node -> option (Emitter * string))) (node : Node)
    : option (Emitter * string) :=
  match branches with
  | [] => None
  | branch :: rest =>
      match branch node with
      | Some r => Some r
      | None => firstMatch rest node
      end
  end.

(** The emitters called on a node by one pass of the callback. *)
Definition emittersCalled (node : Node) : list Emitter :=
  match dispatch node with
  | Some (emitter, _) => [emitter]
  | None => []
  end.

(** The emitter of the kind of a node, if it is of one of the seven kinds. *)
Definition kindOf (node : Node) : option Emitter :=
  match node with
  | NEnum _ => Some EnumEmitter
  | NClass _ => Some ClassEmitter
  | NInterface _ => Some InterfaceEmitter
  | NTypeAlias _ => Some TypeAliasEmitter
  | NFunction _ => Some FunctionEmitter
  | NMethod _ => Some MethodEmitter
  | NVariableStatement _ => Some VariableStatementEmitter
  | NImport _ => None
  | NOther => None
  end.

(** [node.name] is defined; a variable statement is not asked for it. *)
Definition named (node : Node) : bool :=
  match node with
  | NClass c => bool_decide (is_Some (class_name c))
  | NFunction f => bool_decide (is_Some (func_name f))
  | _ => true
  end.

(** The bindings of [elements] that [recorded] does not hold yet, each once,
    in the order of their first request. *)
Fixpoint newBindings (recorded elements : list string) : list string :=
  match elements with
  | [] => []
  | element :: rest =>
      if has recorded element
      then newBindings recorded rest
      else element :: newBindings (recorded ++ [element]) rest
  end.

(** The line under construction after the bindings [fresh] were added. *)
Definition moreBindings (declaration : string) (fresh : list string) : string :=
  fold_left (fun declaration element =>
               if truthy declaration
               then declaration +:+ ", " +:+ element
               else "import { " +:+ element)
            fresh declaration.

(** The request that a call of [generateTypeImport] serves: the module path
    and the names of a named import whose module path is not empty and
    starts with neither [.] nor [/]. Any other import declaration is passed
    over. *)
Definition request (node : ImportDeclaration) : option (string * list string) :=
  match import_importClause node, import_moduleSpecifier node with
  | Some importClause, Some modulePath =>
      if truthy modulePath && negb (startsWith modulePath ".")
         && negb (startsWith modulePath "/")
      then
        match clause_namedBindings importClause with
        | Some (NamedImports elements) => Some (modulePath, elements)
        | _ => None
        end
      else None
  | _, _ => None
  end.

(** The names requested from [modulePath] by a sequence of import
    declarations, in order, and whether there is such a request at all. *)
Fixpoint requests (modulePath : string) (nodes : list ImportDeclaration) : list string :=
  match nodes with
  | [] => []
  | node :: rest =>
      match request node with
      | Some (path, elements) =>
          if String.eqb path modulePath
          then elements ++ requests modulePath rest
          else requests modulePath rest
      | None => requests modulePath rest
      end
  end.

Fixpoint requested (modulePath : string) (nodes : list ImportDeclaration) : bool :=
  match nodes with
  | [] => false
  | node :: rest =>
      match request node with
      | Some (path, _) => String.eqb path modulePath || requested modulePath rest
      | None => requested modulePath rest
      end
  end.

(** Successive calls of [generateTypeImport] on one generator: the lines
    returned, and the index after the last call. *)
Fixpoint importAll (nodes : list ImportDeclaration) (importMap : gmap string (list string))
    : list string * gmap string (list string) :=
  match nodes with
  | [] => ([], importMap)
  | node :: rest =>
      let '(line, importMap) := generateTypeImport node importMap in
      let '(lines, importMap) := importAll rest importMap in
      (line :: lines, importMap)
  end.

(** The lines of a body: the renderings of its members, one after the other. *)
Definition lines {A} (render : A -> string) (members : list A) : string :=
  fold_right (fun member rest => render member +:+ rest) "" members.

Definition enumMemberLine (member : EnumMember) : string :=
  "  " +:+ member_name member +:+ "="
       +:+ match member_initializer member with Some text => text | None => "" end
       +:+ "," +:+ LF.

Definition interfaceMemberLine (member : TypeElement) : string :=
  match member with
  | PropertySignature p => getPropertySignature p
  | MethodSignature m => interfaceMethodLine m
  | OtherTypeElement => ""
  end.

Definition classMemberLine (member : ClassElement) : string :=
  match member with
  | PropertyDeclaration p => getPropertySignature p
  | MethodDeclaration m => generateTypeMethod m
  | ConstructorDeclaration c => constructorLine c
  | OtherClassElement => ""
  end.

Definition declaratorText (declaration : VariableDeclaration) : string :=
  match decl_name declaration with
  | Identifier _ => decl_text declaration
  | BindingPattern _ _ => ""
  end.

(** ** Sample inputs *)

(** [enum Color { Red, Green=2 }] *)
Definition colorEnum : EnumDeclaration :=
  {| enum_name := "Color";
     enum_members := [ {| member_name := "Red"; member_initializer := None |};
                       {| member_name := "Green"; member_initializer := Some "2" |} ] |}.

(** [get ()] and [get (): T] as members. *)
Definition getMethod (type : option string) : Method :=
  {| method_name := "get"; method_typeParameters := []; method_parameters := [];
     method_type := type; method_jsDoc := [] |}.

(** [interface Box<T> { value: T; get () }] *)
Definition boxInterface : InterfaceDeclaration :=
  {| iface_name := "Box"; iface_typeParameters := ["T"];
     iface_members :=
       [ PropertySignature {| prop_name := "value"; prop_type := Some "T"; prop_jsDoc := [] |};
         MethodSignature (getMethod None) ] |}.

(** [class Box<T> { value: T; get () { ... } }] *)
Definition boxClass : ClassDeclaration :=
  {| class_name := Some "Box"; class_typeParameters := ["T"];
     class_members :=
       [ PropertyDeclaration {| prop_name := "value"; prop_type := Some "T"; prop_jsDoc := [] |};
         MethodDeclaration (getMethod None) ] |}.

(** [function area (w: number, h = 1) { ... }] *)
Definition areaFunction : FunctionDeclaration :=
  {| func_name := Some "area";
     func_parameters :=
       [ {| param_name := Identifier "w"; param_type := Some "number";
            param_questionToken := false; param_initializer := None; param_jsDoc := [] |};
         {| param_name := Identifier "h"; param_type := None;
            param_questionToken := false; param_initializer := Some "1"; param_jsDoc := [] |} ];
     func_type := None |}.

(** The parameters [{ a, b }: Options = {}], [[first]], [id?: string] and
    [rest]. *)
Definition pairPatternParam : ParameterDeclaration :=
  {| param_name := BindingPattern "{ a, b }" ["a"; "b"]; param_type := Some "Options";
     param_questionToken := false; param_initializer := Some "{}"; param_jsDoc := [] |}.

Definition singlePatternParam : ParameterDeclaration :=
  {| param_name := BindingPattern "[first]" ["first"]; param_type := None;
     param_questionToken := false; param_initializer := None; param_jsDoc := [] |}.

Definition optionalParam : ParameterDeclaration :=
  {| param_name := Identifier "id"; param_type := Some "string";
     param_questionToken := true; param_initializer := None; param_jsDoc := [] |}.

Definition plainParam : ParameterDeclaration :=
  {| param_name := Identifier "rest"; param_type := None;
     param_questionToken := false; param_initializer := None; param_jsDoc := [] |}.

(** [const x = 5;], [declare const x: number;] and
    [export declare const x: number;] *)
Definition variableStatement (modifiers : list Modifier) (text : string) : VariableStatement :=
  {| stmt_modifiers := modifiers;
     stmt_declarations := [ {| decl_name := Identifier "x"; decl_text := text |} ];
     stmt_jsDoc := [] |}.

Definition constX : VariableStatement := variableStatement [] "x = 5".
Definition declareConstX : VariableStatement := variableStatement [DeclareKeyword] "x: number".
Definition exportDeclareConstX : VariableStatement :=
  variableStatement [ExportKeyword; DeclareKeyword] "x: number".

(** [import { useState, useMemo } from 'react'] and the like. *)
Definition namedImport (modulePath : string) (elements : list string) : ImportDeclaration :=
  {| import_moduleSpecifier := Some modulePath;
     import_importClause := Some {| clause_namedBindings := Some (NamedImports elements) |} |}.

(** [import React from 'react'] *)
Definition defaultImport (modulePath : string) : ImportDeclaration :=
  {| import_moduleSpecifier := Some modulePath;
     import_importClause := Some {| clause_namedBindings := None |} |}.

(** [import { useState, useMemo, useState } from 'react'],
    [import React from 'react'] and [import { a } from './local'], in this
    order. *)
Definition earlierImports : list ImportDeclaration :=
  [namedImport "react" ["useState"; "useMemo"; "useState"];
   defaultImport "react";
   namedImport "./local" ["a"]].

(** [export default class { }] *)
Definition anonymousClass : ClassDeclaration :=
  {| class_name := None; class_typeParameters := []; class_members := [] |}.

(** The configuration of the project's README and a listing of its root
    directory. *)
Definition readmeOptions : CompilerOptions :=
  {| rootDir := Some "./src"; outFile := Some "types/index.d.ts" |}.

Definition readmeInclude : list string :=
  ["./src/**/*.entity.ts"; "./src/**/*.fixtures.ts"].

Definition readmeListing : list string :=
  ["user"; "user/user.entity.ts"; "user/user.service.ts"; "user/user.fixtures.ts"].

Definition resolveUnder (from to : string) : string := from +:+ "/" +:+ to.

(** A project whose configuration sets [outFile] and no [rootDir], with
    the output of an earlier run still in place. *)
Definition noRootConfig : TsConfig :=
  {| compilerOptions := Some {| rootDir := None; outFile := Some "types/index.d.ts" |};
     include := Some ["./src/**/*.entity.ts"];
     exclude := None |}.

Definition noRootFs : FileSystem :=
  <["/proj/tsconfig.declaration.json" := File "{ compilerOptions: { outFile }, include }"]>
    (<["/proj/types/index.d.ts" := File "declare enum Color {}"]> ∅).

Definition runNoRoot : Result unit * FileSystem :=
  run "/proj" "/proj/tsconfig.declaration.json" resolveUnder resolveUnder
      (fun _ => Some noRootConfig) (fun _ _ => Ok []) (fun _ _ => Ok []) noRootFs.

(** The text that the callback adds for a node. *)
Definition emitted (node : Node) : string :=
  match dispatch node with
  | Some (_, text) => text
  | None => ""
  end.

(** The member lines of a type alias, for a type literal and for the type
    literal that a function type returns. *)
Definition literalMemberLine (member : TypeElement) : string :=
  match member with
  | MethodSignature m => literalMethodLine m
  | PropertySignature p => getPropertySignature p
  | OtherTypeElement => ""
  end.

Definition returnedMemberLine (member : TypeElement) : string :=
  match member with
  | MethodSignature m => generateTypeMethod m
  | PropertySignature p => getPropertySignature p
  | OtherTypeElement => ""
  end.

(** [node.type] is a type literal. *)
Definition isTypeLiteralNode (type : TypeNode) : bool :=
  match type with
  | TypeLiteralNode _ _ => true
  | _ => false
  end.

(** What follows [=] in the declaration of a type alias. *)
Definition aliasBody (type : TypeNode) : string :=
  match type with
  | FunctionTypeNode _ parameters returnType =>
      match parameters with
      | [] => ""
      | _ => "(" +:+ getParametersSignature parameters +:+ ")"
      end
      +:+ match returnType with
          | TypeLiteralNode _ members =>
              " => {" +:+ LF +:+ lines returnedMemberLine members +:+ "}"
          | _ => ""
          end
  | TypeLiteralNode _ members => "{" +:+ LF +:+ lines literalMemberLine members +:+ "}"
  | OtherTypeNode text => text
  end.

(** The children of a source file that add text to its declarations. *)
Definition contributes (node : Node) : bool :=
  match node with
  | NEnum _ => true
  | NClass c => bool_decide (is_Some (class_name c))
  | NInterface _ => true
  | NTypeAlias _ => true
  | NFunction f => match func_name f with Some text => truthy text | None => false end
  | NMethod _ => true
  | NVariableStatement v =>
      match stmt_modifiers v with
      | DeclareKeyword :: _ => true
      | _ => false
      end
  | NImport _ => false
  | NOther => false
  end.

(** [type Handler = (event: string) => void] and
    [type Lookup = () => Map<string, number>] *)
Definition functionAlias (name : string) (parameters : list ParameterDeclaration)
    (returnType : string) : TypeAliasDeclaration :=
  {| alias_name := name; alias_typeParameters := [];
     alias_type := FunctionTypeNode "" parameters (OtherTypeNode returnType) |}.

Definition eventParam : ParameterDeclaration :=
  {| param_name := Identifier "event"; param_type := Some "string";
     param_questionToken := false; param_initializer := None; param_jsDoc := [] |}.


(** The project of the README: its configuration, the output of an earlier
    run, and two sources, one with [enum Color { Red, Green=2 }] and one with
    an import only. *)
Definition readmeConfig : TsConfig :=
  {| compilerOptions := Some readmeOptions;
     include := Some readmeInclude;
     exclude := Some ["./src/**/*.service.ts"] |}.

Definition readmeFs : FileSystem :=
  <["/proj/tsconfig.declaration.json" := File "{ compilerOptions, include, exclude }"]>
    (<["/proj/types/index.d.ts" := File "declare enum Stale {}"]> ∅).

(** The project with the directory of its output file. *)
Definition projectFs : FileSystem := <["/proj/types" := Directory]> readmeFs.

(** The source at a path of the project. *)
Definition readmeSourceAt (filePath : string) : SourceFile :=
  if String.eqb filePath "./src/user/user.entity.ts"
  then [NImport (namedImport "react" ["useState"]); NEnum colorEnum]
  else [NImport (namedImport "react" ["useState"])].

Definition readReadme (fs : FileSystem) (filePath : string) : Result SourceFile :=
  Ok (readmeSourceAt filePath).

(** The same project with a source that cannot be read. *)
Definition readBroken (fs : FileSystem) (filePath : string) : Result SourceFile :=
  if String.eqb filePath "./src/user/user.fixtures.ts"
  then Throw (TypeError "Cannot read properties of undefined (reading 'length')")
  else Ok (readmeSourceAt filePath).

(** A configuration without [outFile]. *)
Definition noOutFileConfig : TsConfig :=
  {| compilerOptions := Some {| rootDir := Some "./src"; outFile := None |};
     include := Some readmeInclude;
     exclude := None |}.

(** ** Lemmas on the built-ins *)

Lemma append_nil_l (s : string) : "" +:+ s = s.
Proof. reflexivity. Qed.

Lemma append_cons (c : ascii) (s t : string) : String c s +:+ t = String c (s +:+ t).
Proof. reflexivity. Qed.

Lemma append_nil_r (s : string) : s +:+ "" = s.
Proof.
  induction s as [|c s IH]; [reflexivity | now rewrite append_cons, IH].
Qed.

Lemma append_assoc (a b c : string) : (a +:+ b) +:+ c = a +:+ b +:+ c.
Proof.
  induction a as [|x a IH]; [reflexivity | now rewrite !append_cons, IH].
Qed.

Lemma truthy_true (s : string) : truthy s = true <-> s <> "".
Proof. destruct s; simpl; split; intros; congruence. Qed.

Lemma truthy_false (s : string) : truthy s = false <-> s = "".
Proof. destruct s; simpl; split; intros; congruence. Qed.

Lemma startsWith_spec (s p : string) :
  startsWith s p = true <-> exists b, s = p +:+ b.
Proof.
  revert s; induction p as [|a p IH]; intros s; simpl.
  - split; [intros _; now exists s | reflexivity].
  - destruct s as [|c s].
    + split; [discriminate | intros [b Hb]; discriminate].
    + rewrite andb_true_iff, IH, Ascii.eqb_eq. split.
      * intros [-> [b ->]]. now exists b.
      * intros [b Hb]. rewrite append_cons in Hb. injection Hb as -> ->.
        split; [reflexivity | now exists b].
Qed.

Lemma includes_Occurs (s p : string) : includes s p = true <-> Occurs p s.
Proof.
  induction s as [|c s IH].
  - simpl. rewrite orb_false_r, startsWith_spec. split.
    + intros [b Hb]. now exists "", b.
    + intros [a [b Hb]]. destruct a; [now exists b | discriminate].
  - cbn [includes]. rewrite orb_true_iff, IH, startsWith_spec. split.
    + intros [[b Hb] | [a [b Hb]]].
      * now exists "", b.
      * exists (String c a), b. now rewrite append_cons, Hb.
    + intros [a [b Hb]]. destruct a as [|x a].
      * left. now exists b.
      * right. rewrite append_cons in Hb. injection Hb as _ Hb. now exists a, b.
Qed.

Lemma includes_false_Occurs (s p : string) : includes s p = false <-> ~ Occurs p s.
Proof.
  rewrite <- includes_Occurs. destruct (includes s p); split; intros; congruence.
Qed.

Lemma includes_empty (s : string) : includes s "" = true.
Proof. destruct s; reflexivity. Qed.

Lemma join_cons (sep x y : string) (rest : list string) :
  join sep (x :: y :: rest) = x +:+ sep +:+ join sep (y :: rest).
Proof. reflexivity. Qed.

(** *** [split] on the token [*.] *)

Lemma startsWith_token (c : ascii) (r : string) :
  startsWith (String c r) "*." = true <-> exists r', c = "*"%char /\ r = String "."%char r'.
Proof.
  rewrite startsWith_spec. split.
  - intros [b Hb]. rewrite !append_cons, append_nil_l in Hb.
    injection Hb as -> ->. now exists b.
  - intros [r' [-> ->]]. now exists r'.
Qed.

Lemma splitFrom_token (cur r : string) :
  splitFrom "*." 0 cur (String "*" (String "." r)) = cur :: splitFrom "*." 0 "" r.
Proof. reflexivity. Qed.

Lemma splitFrom_other (cur r : string) (c : ascii) :
  startsWith (String c r) "*." = false ->
  splitFrom "*." 0 cur (String c r) = splitFrom "*." 0 (cur +:+ String c "") r.
Proof. intros H. cbn [splitFrom]. now rewrite H. Qed.

Lemma splitFrom_nonempty (sep : string) (skip : nat) (cur s : string) :
  splitFrom sep skip cur s <> [].
Proof.
  revert skip cur; induction s as [|c s IH]; intros skip cur; cbn [splitFrom].
  - discriminate.
  - destruct skip; [destruct (startsWith _ _); [discriminate | apply IH] | apply IH].
Qed.

Lemma last_cons_nonempty (x d : string) (l : list string) :
  l <> [] -> List.last (x :: l) d = List.last l d.
Proof. destruct l; [congruence | reflexivity]. Qed.

(** Without a token the text is one piece. *)
Lemma splitFrom_no_token (cur s : string) :
  includes s "*." = false -> splitFrom "*." 0 cur s = [cur +:+ s].
Proof.
  revert cur; induction s as [|c s IH]; intros cur H.
  - cbn [splitFrom]. now rewrite append_nil_r.
  - cbn [includes] in H. apply orb_false_iff in H as [H1 H2].
    rewrite splitFrom_other by exact H1. rewrite IH by exact H2.
    now rewrite append_assoc.
Qed.

(** The last piece is the text after the last token. *)
Lemma splitFrom_last (n : nat) :
  forall prefix cur suffix,
    String.length prefix <= n ->
    includes suffix "*." = false ->
    List.last (splitFrom "*." 0 cur (prefix +:+ "*." +:+ suffix)) "" = suffix.
Proof.
  induction n as [|n IH]; intros prefix cur suffix Hlen Hno.
  - destruct prefix; [|simpl in Hlen; lia].
    rewrite append_nil_l, !append_cons, append_nil_l, splitFrom_token.
    now rewrite splitFrom_no_token.
  - destruct prefix as [|c prefix].
    + apply (IH "" cur suffix); [simpl; lia | exact Hno].
    + rewrite append_cons.
      destruct (startsWith (String c (prefix +:+ "*." +:+ suffix)) "*.") eqn:E.
      * apply startsWith_token in E as [r' [-> E]].
        destruct prefix as [|d prefix].
        { rewrite append_nil_l, !append_cons in E. discriminate. }
        rewrite append_cons in E. injection E as -> <-.
        rewrite append_cons, splitFrom_token.
        rewrite last_cons_nonempty by apply splitFrom_nonempty.
        apply IH; [simpl in Hlen; lia | exact Hno].
      * rewrite splitFrom_other by exact E.
        apply IH; [simpl in Hlen; lia | exact Hno].
Qed.

Lemma patternSuffix_after_last (pattern suffix : string) :
  AfterLastToken pattern suffix -> patternSuffix pattern = suffix.
Proof.
  intros [[prefix ->] Hno]. unfold patternSuffix, at_last, split.
  apply (splitFrom_last (String.length prefix)); [lia |].
  now apply includes_false_Occurs.
Qed.

Lemma patternSuffix_no_token (pattern : string) :
  ~ Occurs "*." pattern -> patternSuffix pattern = pattern.
Proof.
  intros H. unfold patternSuffix, at_last, split.
  rewrite splitFrom_no_token by now apply includes_false_Occurs.
  reflexivity.
Qed.

(** *** The filter of the selector *)

Lemma find_Some_first {A} (p : A -> bool) (a : list A) (x : A) :
  find p a = Some x -> In x a /\ p x = true.
Proof.
  induction a as [|y a IH]; simpl; [discriminate |].
  destruct (p y) eqn:E.
  - intros [= ->]. auto.
  - intros H. destruct (IH H). auto.
Qed.

Lemma find_None_all {A} (p : A -> bool) (a : list A) :
  find p a = None <-> forall x, In x a -> p x = false.
Proof.
  induction a as [|y a IH]; simpl.
  - split; [intros _ x [] | reflexivity].
  - destruct (p y) eqn:E.
    + split; [discriminate | intros H; rewrite (H y) in E; [discriminate | now left]].
    + rewrite IH. split.
      * intros H x [<- | Hx]; [exact E | now apply H].
      * intros H x Hx. apply H. now right.
Qed.

(** With no empty pattern, a file name is kept exactly when it includes one
    of the patterns. *)
Lemma selected_iff (patterns : list string) (fileName : string) :
  (forall pattern, In pattern patterns -> pattern <> "") ->
  selected patterns fileName = true <->
  exists pattern, In pattern patterns /\ includes fileName pattern = true.
Proof.
  intros Hne. unfold selected.
  destruct (find _ patterns) as [x|] eqn:E; simpl.
  - apply find_Some_first in E as [Hin Hx].
    rewrite truthy_true. split; [intros _; eauto | intros _; now apply Hne].
  - rewrite find_None_all in E. split; [discriminate |].
    intros [pattern [Hin Hp]]. rewrite (E _ Hin) in Hp. discriminate.
Qed.

(** ** The file selector *)

(** Where [rootDir] is set and every include pattern has some text after
    its last [*.] token, a listed file is selected if and only if its path
    contains, as a substring, the suffix (the text after the last [*.]
    token) of some configured pattern; nothing else of the pattern is
    looked at. *)
Theorem getFiles_selects_by_suffix
    (cwd tsConfigPath : string) (resolve : string -> string -> string)
    (readdirSync : FileSystem -> string -> Result (list string))
    (options : CompilerOptions) (include : list string) (fs : FileSystem)
    (root : string) (fileNames : list string) :
  rootDir options = Some root ->
  root <> "" ->
  readdirSync fs (resolve cwd root) = Ok fileNames ->
  (forall pattern, In pattern include ->
     exists suffix, AfterLastToken pattern suffix /\ suffix <> "") ->
  exists files,
    getFiles cwd tsConfigPath resolve readdirSync options (Some include) fs = Ok files /\
    forall fileName,
      In fileName files <->
      In fileName fileNames /\
      exists pattern suffix,
        In pattern include /\ AfterLastToken pattern suffix /\ Occurs suffix fileName.
Proof.
  intros Hroot Hne Hdir Hform. unfold getFiles. rewrite Hroot.
  apply truthy_true in Hne. rewrite Hne. cbn [negb]. rewrite Hdir.
  eexists. split; [reflexivity |].
  intros fileName. rewrite filter_In.
  assert (Hpat : forall pattern, In pattern (map patternSuffix include) -> pattern <> "").
  { intros pattern Hin. apply in_map_iff in Hin as [p [<- Hp]].
    destruct (Hform p Hp) as [suffix [Hs Hs']].
    now rewrite (patternSuffix_after_last _ _ Hs). }
  rewrite (selected_iff _ _ Hpat). split.
  - intros [Hf [pattern [Hin Hinc]]]. split; [exact Hf |].
    apply in_map_iff in Hin as [p [<- Hp]].
    destruct (Hform p Hp) as [suffix [Hs _]].
    exists p, suffix. repeat split; try assumption.
    + now destruct Hs.
    + now destruct Hs.
    + apply includes_Occurs. now rewrite <- (patternSuffix_after_last _ _ Hs).
  - intros [Hf [p [suffix [Hp [Hs Hocc]]]]]. split; [exact Hf |].
    exists suffix. split.
    + apply in_map_iff. exists p. split; [now apply patternSuffix_after_last | exact Hp].
    + now apply includes_Occurs.
Qed.

Lemma getFiles_selects_by_suffix_witness :
  (forall pattern, In pattern readmeInclude ->
     exists suffix, AfterLastToken pattern suffix /\ suffix <> "") /\
  exists files,
    getFiles "/proj" "/proj/tsconfig.declaration.json" resolveUnder
      (fun _ _ => Ok readmeListing) readmeOptions (Some readmeInclude) ∅ = Ok files /\
    forall fileName,
      In fileName files <->
      In fileName readmeListing /\
      exists pattern suffix,
        In pattern readmeInclude /\ AfterLastToken pattern suffix /\ Occurs suffix fileName.
Proof.
  assert (H : forall pattern, In pattern readmeInclude ->
                exists suffix, AfterLastToken pattern suffix /\ suffix <> "").
  { intros pattern [<- | [<- | []]].
    - exists "entity.ts". split; [split |]; [now exists "./src/**/" | | discriminate].
      now apply includes_false_Occurs.
    - exists "fixtures.ts". split; [split |]; [now exists "./src/**/" | | discriminate].
      now apply includes_false_Occurs. }
  split; [exact H |].
  apply (getFiles_selects_by_suffix "/proj" "/proj/tsconfig.declaration.json" resolveUnder
           (fun _ _ => Ok readmeListing) readmeOptions readmeInclude ∅ "./src" readmeListing);
    [reflexivity | discriminate | reflexivity | exact H].
Defined.

(** C6, where it breaks: both patterns of the include list
    [["lib/*."; "./src/**/*.ts"]] have the form [prefix*.suffix], and the
    path [a.ts] contains [ts], the text after the last [*.] token of the
    second. [getFiles] does not select it: the first pattern is reduced to
    the empty string, which occurs in every path, so [find] returns it and
    the filter takes it for false. With the second pattern alone the file
    is selected. *)
Theorem getFiles_empty_suffix_hides_suffix :
  AfterLastToken "lib/*." "" /\
  AfterLastToken "./src/**/*.ts" "ts" /\
  Occurs "ts" "a.ts" /\
  getFiles "/proj" "/proj/tsconfig.declaration.json" resolveUnder
    (fun _ _ => Ok ["a.ts"]) readmeOptions (Some ["lib/*."; "./src/**/*.ts"]) ∅ = Ok [] /\
  getFiles "/proj" "/proj/tsconfig.declaration.json" resolveUnder
    (fun _ _ => Ok ["a.ts"]) readmeOptions (Some ["./src/**/*.ts"]) ∅ = Ok ["a.ts"].
Proof.
  split; [| split; [| split; [| split]]].
  - split; [now exists "lib/" | now apply includes_false_Occurs].
  - split; [now exists "./src/**/" | now apply includes_false_Occurs].
  - now apply includes_Occurs.
  - reflexivity.
  - reflexivity.
Qed.

(** C10, the part that holds: a pattern without a [*.] token is reduced to
    itself, so the substring test runs on the whole pattern. *)
Lemma patternSuffix_whole_pattern (pattern : string) :
  ~ Occurs "*." pattern ->
  patternSuffix pattern = pattern /\
  forall fileName, includes fileName (patternSuffix pattern) = true <-> Occurs pattern fileName.
Proof.
  intros H. rewrite (patternSuffix_no_token _ H). split; [reflexivity |].
  intros fileName. apply includes_Occurs.
Qed.

(** With no pattern reduced to the empty string, a file whose path contains
    a whole token-free pattern is kept. *)
Lemma selected_whole_pattern (include : list string) (pattern fileName : string) :
  (forall p, In p include -> patternSuffix p <> "") ->
  In pattern include ->
  ~ Occurs "*." pattern ->
  Occurs pattern fileName ->
  selected (map patternSuffix include) fileName = true.
Proof.
  intros Hne Hin Htoken Hocc. apply selected_iff.
  - intros q Hq. apply in_map_iff in Hq as [p [<- Hp]]. now apply Hne.
  - exists pattern. split.
    + apply in_map_iff. exists pattern. split; [now apply patternSuffix_no_token | exact Hin].
    + now apply includes_Occurs.
Qed.

(** C10, where it breaks: the filter keeps a file by the truthiness of the
    pattern that [find] returns, and the empty pattern is falsy. With the
    include list [[""; "src"]] the file [src/index.ts] contains both whole
    patterns and is not selected; with [[""]] nothing is. *)
Theorem getFiles_empty_pattern_selects_nothing :
  patternSuffix "" = "" /\
  includes "src/index.ts" "" = true /\
  includes "src/index.ts" "src" = true /\
  getFiles "/proj" "/proj/tsconfig.declaration.json" resolveUnder
    (fun _ _ => Ok ["src/index.ts"]) readmeOptions (Some [""; "src"]) ∅ = Ok [] /\
  getFiles "/proj" "/proj/tsconfig.declaration.json" resolveUnder
    (fun _ _ => Ok ["src/index.ts"]) readmeOptions (Some [""]) ∅ = Ok [] /\
  getFiles "/proj" "/proj/tsconfig.declaration.json" resolveUnder
    (fun _ _ => Ok ["src/index.ts"]) readmeOptions (Some ["lib/*."; "src"]) ∅ = Ok [] /\
  getFiles "/proj" "/proj/tsconfig.declaration.json" resolveUnder
    (fun _ _ => Ok ["src/index.ts"]) readmeOptions (Some ["src"]) ∅ = Ok ["src/index.ts"].
Proof. repeat split. Qed.

(** ** The run on a configuration without [rootDir] *)

Section RunWithoutRootDir.

Variable cwd : string.
Variable tsConfigPath : string.
Variable resolve : string -> string -> string.
Variable pathJoin : string -> string -> string.
Variable parseConfig : string -> option TsConfig.
Variable readdirSync : FileSystem -> string -> Result (list string).
Variable readSourceFile : FileSystem -> string -> Result SourceFile.

Variable fs : FileSystem.
Variable tsConfigOptions : TsConfig.
Variable options : CompilerOptions.
Variable out : string.

Hypothesis Hconfig : setTsConfig tsConfigPath parseConfig fs = Some tsConfigOptions.
Hypothesis Hoptions : compilerOptions tsConfigOptions = Some options.
Hypothesis Hout : outFile options = Some out.
Hypothesis Hout_ne : out <> "".
Hypothesis Hroot : rootDir options = None.

Let run' := run cwd tsConfigPath resolve pathJoin parseConfig readdirSync readSourceFile.

(** The error names the missing field and the configuration path, and
    nothing is written. *)
Lemma run_without_rootDir_throws :
  fst (run' fs) = Throw (Error ("Expected rootDir option in " +:+ tsConfigPath
                                 +:+ " session compilerOptions")) \/
  fst (run' fs) = Throw (SystemError "ERR_FS_EISDIR").
Proof.
  unfold run', run. rewrite Hconfig, Hoptions, Hout.
  unfold existsSync, rmSync.
  destruct (fs !! resolve cwd out) as [[c|]|] eqn:E.
  - rewrite bool_decide_eq_true_2 by eauto.
    apply truthy_true in Hout_ne. rewrite Hout_ne. cbn [negb].
    unfold getFiles. rewrite Hroot. now left.
  - rewrite bool_decide_eq_true_2 by eauto. now right.
  - rewrite bool_decide_eq_false_2 by (intros [x Hx]; discriminate).
    apply truthy_true in Hout_ne. rewrite Hout_ne. cbn [negb].
    unfold getFiles. rewrite Hroot. now left.
Qed.

(** An output file left by an earlier run is gone when the error is
    raised. *)
Lemma run_without_rootDir_removes_output (content : string) :
  fs !! resolve cwd out = Some (File content) ->
  run' fs = (Throw (rootDirError tsConfigPath), delete (resolve cwd out) fs).
Proof.
  intros E. unfold run', run. rewrite Hconfig, Hoptions, Hout.
  unfold existsSync, rmSync. rewrite E.
  rewrite bool_decide_eq_true_2 by eauto.
  apply truthy_true in Hout_ne. rewrite Hout_ne. cbn [negb].
  unfold getFiles. now rewrite Hroot.
Qed.

End RunWithoutRootDir.

(** C7: on a configuration without [rootDir] the run throws the error that
    names the field and the configuration path and writes nothing; but the
    output file of an earlier run, present before the run, has been removed
    by the time the error is raised. *)
Theorem run_missing_rootDir_removes_output :
  fst runNoRoot =
    Throw (Error "Expected rootDir option in /proj/tsconfig.declaration.json session compilerOptions") /\
  noRootFs !! "/proj/types/index.d.ts" = Some (File "declare enum Color {}") /\
  snd runNoRoot !! "/proj/types/index.d.ts" = None /\
  snd runNoRoot = delete "/proj/types/index.d.ts" noRootFs.
Proof.
  assert (H : runNoRoot = (Throw (rootDirError "/proj/tsconfig.declaration.json"),
                           delete (resolveUnder "/proj" "types/index.d.ts") noRootFs)).
  { unfold runNoRoot.
    eapply (run_without_rootDir_removes_output "/proj" "/proj/tsconfig.declaration.json"
             resolveUnder resolveUnder (fun _ => Some noRootConfig) (fun _ _ => Ok [])
             (fun _ _ => Ok []) noRootFs noRootConfig
             {| rootDir := None; outFile := Some "types/index.d.ts" |} "types/index.d.ts");
      try reflexivity; try discriminate. }
  rewrite H. repeat split.
Qed.

(** ** The emitters *)

(** A loop that appends one rendering per member builds the lines of the
    members after what was there. *)
Lemma fold_left_lines {A} (step : string -> A -> string) (render : A -> string)
    (members : list A) (init : string) :
  (forall acc member, step acc member = acc +:+ render member) ->
  fold_left step members init = init +:+ lines render members.
Proof.
  intros Hstep. revert init; induction members as [|member members IH]; intros init.
  - simpl. now rewrite append_nil_r.
  - simpl. rewrite IH, Hstep. apply append_assoc.
Qed.

Lemma append_empty_inv (a b : string) : a +:+ b = "" -> a = "" /\ b = "".
Proof.
  destruct a; [rewrite append_nil_l; now intros -> | rewrite append_cons; discriminate].
Qed.

Lemma generateTypeEnumeration_lines (node : EnumDeclaration) :
  generateTypeEnumeration node =
  "declare enum " +:+ enum_name node +:+ " {" +:+ LF
    +:+ lines enumMemberLine (enum_members node) +:+ "}" +:+ LF +:+ LF.
Proof.
  unfold generateTypeEnumeration.
  rewrite (fold_left_lines _ enumMemberLine); [reflexivity |].
  intros acc member. unfold enumMemberLine. reflexivity.
Qed.

Lemma generateTypeInterface_lines (node : InterfaceDeclaration) :
  generateTypeInterface node =
  "declare interface " +:+ iface_name node +:+ " "
    +:+ angle (getGenerics (iface_typeParameters node)) +:+ " {" +:+ LF
    +:+ lines interfaceMemberLine (iface_members node) +:+ "}" +:+ LF +:+ LF.
Proof.
  unfold generateTypeInterface.
  rewrite (fold_left_lines _ interfaceMemberLine); [reflexivity |].
  intros acc [p | m |]; simpl; [reflexivity | reflexivity | now rewrite append_nil_r].
Qed.

Lemma generateClassType_lines (node : ClassDeclaration) (name : string) :
  class_name node = Some name ->
  generateClassType node =
  "declare class " +:+ name +:+ angle (getGenerics (class_typeParameters node))
    +:+ " {" +:+ LF +:+ LF
    +:+ lines classMemberLine (class_members node) +:+ "}" +:+ LF.
Proof.
  intros Hname. unfold generateClassType. rewrite Hname.
  rewrite (fold_left_lines _ classMemberLine); [reflexivity |].
  intros acc [p | m | c |]; simpl; try reflexivity. now rewrite append_nil_r.
Qed.

(** C3, as stated, fails: for [enum Color { Red, Green=2 }] the enum emitter
    does not return the text that ends in a single line feed. *)
Lemma generateTypeEnumeration_color_not_single_line_feed :
  generateTypeEnumeration colorEnum <>
  "declare enum Color {" +:+ LF +:+ "  Red=," +:+ LF +:+ "  Green=2," +:+ LF +:+ "}" +:+ LF.
Proof. vm_compute. discriminate. Qed.

(** C3, amended: every member is emitted as its name, [=], the verbatim text
    of its initializer (nothing when it has none) and a comma; the
    declaration ends in an empty line, so [enum Color { Red, Green=2 }]
    gives the text of the claim followed by one more line feed. The emitter
    of the earlier revision returns exactly the text of the claim. *)
Theorem generateTypeEnumeration_members (node : EnumDeclaration) :
  generateTypeEnumeration node =
    "declare enum " +:+ enum_name node +:+ " {" +:+ LF
      +:+ lines enumMemberLine (enum_members node) +:+ "}" +:+ LF +:+ LF
  /\ (forall name text,
        enumMemberLine {| member_name := name; member_initializer := Some text |} =
        "  " +:+ name +:+ "=" +:+ text +:+ "," +:+ LF)
  /\ (forall name,
        enumMemberLine {| member_name := name; member_initializer := None |} =
        "  " +:+ name +:+ "=," +:+ LF)
  /\ generateTypeEnumeration colorEnum =
       "declare enum Color {" +:+ LF +:+ "  Red=," +:+ LF +:+ "  Green=2," +:+ LF
         +:+ "}" +:+ LF +:+ LF
  /\ IndexTs.generateTypeEnumeration colorEnum =
       "declare enum Color {" +:+ LF +:+ "  Red=," +:+ LF +:+ "  Green=2," +:+ LF
         +:+ "}" +:+ LF.
Proof.
  split; [apply generateTypeEnumeration_lines |].
  repeat split.
Qed.

(** C1, as stated, fails: a method signature of an interface that has no
    return-type annotation is rendered with [unknown], and [void] appears
    nowhere in the declaration. *)
Lemma generateTypeInterface_method_unknown :
  method_type (getMethod None) = None /\
  In (MethodSignature (getMethod None)) (iface_members boxInterface) /\
  generateTypeInterface boxInterface =
    "declare interface Box <T> {" +:+ LF +:+ LF +:+ "    value: T" +:+ LF
      +:+ "  get(): unknown" +:+ LF +:+ "}" +:+ LF +:+ LF /\
  includes (generateTypeInterface boxInterface) "void" = false.
Proof. repeat split. simpl. auto. Qed.

(** C1, amended: a function declaration and a method declaration of a class
    (or any method rendered by [generateTypeMethod]) without a return-type
    annotation render the return type as [void]; a method signature of an
    interface without one renders it as [unknown]. *)
Theorem missing_return_type_placeholder
    (f : FunctionDeclaration) (name : string) (m : Method)
    (c : ClassDeclaration) (cname : string) (i : InterfaceDeclaration) :
  (func_name f = Some name -> name <> "" -> func_type f = None ->
     generateTypeFunction f =
     "declare function " +:+ name +:+ "(" +:+ getParametersSignature (func_parameters f)
       +:+ "):void" +:+ LF +:+ LF)
  /\ (method_type m = None ->
        generateTypeMethod m =
          "  " +:+ getJsDocComment (method_jsDoc m) +:+ method_name m
             +:+ angle (getGenerics (method_typeParameters m))
             +:+ "(" +:+ getParametersSignature (method_parameters m) +:+ "): void" +:+ LF
        /\ classMemberLine (MethodDeclaration m) = generateTypeMethod m
        /\ interfaceMemberLine (MethodSignature m) =
             "  " +:+ method_name m +:+ "(" +:+ getParametersSignature (method_parameters m)
                +:+ "): unknown" +:+ LF)
  /\ (class_name c = Some cname ->
        generateClassType c =
        "declare class " +:+ cname +:+ angle (getGenerics (class_typeParameters c))
          +:+ " {" +:+ LF +:+ LF +:+ lines classMemberLine (class_members c) +:+ "}" +:+ LF)
  /\ generateTypeInterface i =
       "declare interface " +:+ iface_name i +:+ " "
         +:+ angle (getGenerics (iface_typeParameters i)) +:+ " {" +:+ LF
         +:+ lines interfaceMemberLine (iface_members i) +:+ "}" +:+ LF +:+ LF.
Proof.
  repeat apply conj.
  - intros Hname Hne Htype. unfold generateTypeFunction. rewrite Hname, Htype.
    apply truthy_true in Hne. now rewrite Hne.
  - intros Htype. repeat apply conj.
    + unfold generateTypeMethod. now rewrite Htype.
    + reflexivity.
    + unfold interfaceMemberLine, interfaceMethodLine. now rewrite Htype.
  - apply generateClassType_lines.
  - apply generateTypeInterface_lines.
Qed.

Lemma missing_return_type_placeholder_witness :
  (func_name areaFunction = Some "area" /\ func_type areaFunction = None /\
   method_type (getMethod None) = None /\ class_name boxClass = Some "Box") /\
  generateTypeFunction areaFunction =
    "declare function area(w: number, h?: unknown):void" +:+ LF +:+ LF /\
  generateTypeMethod (getMethod None) = "  get(): void" +:+ LF /\
  interfaceMemberLine (MethodSignature (getMethod None)) = "  get(): unknown" +:+ LF /\
  generateClassType boxClass =
    "declare class Box<T> {" +:+ LF +:+ LF +:+ LF +:+ "    value: T" +:+ LF
      +:+ "  get(): void" +:+ LF +:+ "}" +:+ LF.
Proof.
  destruct (missing_return_type_placeholder areaFunction "area" (getMethod None)
              boxClass "Box" boxInterface) as [Hf [Hm [Hc _]]].
  assert (Hne : "area" <> "") by discriminate.
  destruct (Hm eq_refl) as [Hm1 [_ Hm3]].
  split; [repeat split |].
  rewrite (Hf eq_refl Hne eq_refl), Hm1, Hm3, (Hc eq_refl).
  repeat split.
Defined.

(** C8, as stated, fails: [export declare const x: number;] carries a
    [declare] modifier and produces the empty string. *)
Lemma generateVariableDeclarationType_export_declare :
  In DeclareKeyword (stmt_modifiers exportDeclareConstX) /\
  generateVariableDeclarationType exportDeclareConstX = "".
Proof. split; [simpl; auto | reflexivity]. Qed.

(** C8, amended: a variable statement produces output if and only if its
    first modifier is [declare]; the output is then the documentation
    comment, [declare const ], the verbatim texts of the declarators named
    by an identifier, and an empty line. Every statement without modifiers,
    such as [const x = 5;], produces the empty string. *)
Theorem generateVariableDeclarationType_first_modifier (node : VariableStatement) :
  (generateVariableDeclarationType node <> "" <->
   head (stmt_modifiers node) = Some DeclareKeyword)
  /\ (head (stmt_modifiers node) = Some DeclareKeyword ->
        generateVariableDeclarationType node =
        getJsDocComment (stmt_jsDoc node) +:+ "declare const "
          +:+ lines declaratorText (stmt_declarations node) +:+ LF +:+ LF)
  /\ (stmt_modifiers node = [] -> generateVariableDeclarationType node = "")
  /\ generateVariableDeclarationType constX = "".
Proof.
  assert (Hdecl : head (stmt_modifiers node) = Some DeclareKeyword ->
            generateVariableDeclarationType node =
            getJsDocComment (stmt_jsDoc node) +:+ "declare const "
              +:+ lines declaratorText (stmt_declarations node) +:+ LF +:+ LF).
  { unfold generateVariableDeclarationType.
    destruct (stmt_modifiers node) as [|[] rest]; simpl; try discriminate.
    intros _. rewrite (fold_left_lines _ declaratorText).
    - now rewrite append_assoc.
    - intros acc declaration. unfold declaratorText.
      destruct (decl_name declaration); [reflexivity | now rewrite append_nil_r]. }
  repeat apply conj.
  - intros Hne. unfold generateVariableDeclarationType in Hne.
    destruct (stmt_modifiers node) as [|[] rest]; simpl in *; congruence.
  - intros Hhead Hempty. rewrite (Hdecl Hhead) in Hempty.
    apply append_empty_inv in Hempty as [_ Hempty]. discriminate.
  - exact Hdecl.
  - intros Hmods. unfold generateVariableDeclarationType. now rewrite Hmods.
  - reflexivity.
Qed.

Lemma generateVariableDeclarationType_first_modifier_witness :
  head (stmt_modifiers declareConstX) = Some DeclareKeyword /\
  generateVariableDeclarationType declareConstX = "declare const x: number" +:+ LF +:+ LF /\
  generateVariableDeclarationType declareConstX <> "".
Proof.
  destruct (generateVariableDeclarationType_first_modifier declareConstX)
    as [Hiff [Hdecl _]].
  split; [reflexivity |]. split.
  - rewrite (Hdecl eq_refl). reflexivity.
  - apply Hiff. reflexivity.
Defined.

(** ** The signature formatter *)

(** C4: a parameter bound to a destructuring pattern with more than one
    element is emitted under the name [param]; a parameter bound to a
    pattern with one element (or none), or to a plain identifier, is emitted
    under the verbatim text of its name. *)
Theorem parameter_name_of_pattern
    (parameter : ParameterDeclaration) (text : string) (elements : list string) :
  parameterFragment parameter =
    getJsDocComment (param_jsDoc parameter) +:+ parameterName parameter
      +:+ parameterOptional parameter +:+ ": " +:+ parameterType parameter
  /\ (param_name parameter = BindingPattern text elements ->
      1 < length elements -> parameterName parameter = "param")
  /\ (param_name parameter = BindingPattern text elements ->
      length elements <= 1 -> parameterName parameter = text)
  /\ (param_name parameter = Identifier text -> parameterName parameter = text).
Proof.
  unfold parameterName. repeat apply conj.
  - reflexivity.
  - intros -> Hlen. simpl. apply Nat.ltb_lt in Hlen. now rewrite Hlen.
  - intros -> Hlen. simpl. apply Nat.ltb_ge in Hlen. now rewrite Hlen.
  - now intros ->.
Qed.

Lemma parameter_name_of_pattern_witness :
  (1 < length ["a"; "b"] /\ length ["first"] <= 1) /\
  parameterName pairPatternParam = "param" /\
  parameterName singlePatternParam = "[first]" /\
  parameterName plainParam = "rest" /\
  getParametersSignature [pairPatternParam; singlePatternParam; plainParam] =
    "param?: Options, [first]: unknown, rest: unknown".
Proof.
  destruct (parameter_name_of_pattern pairPatternParam "{ a, b }" ["a"; "b"])
    as [_ [Hmany _]].
  destruct (parameter_name_of_pattern singlePatternParam "[first]" ["first"])
    as [_ [_ [Hone _]]].
  destruct (parameter_name_of_pattern plainParam "rest" []) as [_ [_ [_ Hident]]].
  assert (H2 : 1 < length ["a"; "b"]) by (simpl; lia).
  assert (H1 : length ["first"] <= 1) by (simpl; lia).
  split; [split; assumption |].
  rewrite (Hmany eq_refl H2), (Hone eq_refl H1), (Hident eq_refl).
  repeat split.
Defined.

(** C5: the fragment of a parameter carries [?] if and only if the parameter
    has a question token or an initializer; its type text is the annotation,
    verbatim, when there is one and the placeholder [unknown] when there is
    none; the fragments are joined by a comma and a space. *)
Theorem parameter_fragment_markers
    (parameter next : ParameterDeclaration) (rest : list ParameterDeclaration) :
  parameterFragment parameter =
    getJsDocComment (param_jsDoc parameter) +:+ parameterName parameter
      +:+ parameterOptional parameter +:+ ": " +:+ parameterType parameter
  /\ (parameterOptional parameter = "?" <->
      param_questionToken parameter = true \/ is_Some (param_initializer parameter))
  /\ (parameterOptional parameter <> "?" -> parameterOptional parameter = "")
  /\ (param_type parameter = None -> parameterType parameter = "unknown")
  /\ (forall type, param_type parameter = Some type -> parameterType parameter = type)
  /\ getParametersSignature [] = ""
  /\ getParametersSignature [parameter] = parameterFragment parameter
  /\ getParametersSignature (parameter :: next :: rest) =
       parameterFragment parameter +:+ ", " +:+ getParametersSignature (next :: rest).
Proof.
  unfold parameterOptional, parameterType. repeat apply conj; try reflexivity.
  - destruct (param_questionToken parameter); simpl.
    + auto.
    + case_bool_decide; [auto | discriminate].
  - intros [Hq | Hi].
    + now rewrite Hq.
    + rewrite (bool_decide_eq_true_2 _ Hi). now rewrite orb_true_r.
  - destruct (_ || _); [congruence | reflexivity].
  - now intros ->.
  - now intros type ->.
Qed.

Lemma parameter_fragment_markers_witness :
  (param_questionToken optionalParam = true /\
   is_Some (param_initializer pairPatternParam) /\
   param_type plainParam = None) /\
  parameterOptional optionalParam = "?" /\
  parameterOptional pairPatternParam = "?" /\
  parameterOptional plainParam = "" /\
  parameterType plainParam = "unknown" /\
  parameterType optionalParam = "string" /\
  getParametersSignature [optionalParam; plainParam] = "id?: string, rest: unknown".
Proof.
  destruct (parameter_fragment_markers optionalParam plainParam [])
    as [_ [Hopt [_ [_ [Htype [_ [_ Hjoin]]]]]]].
  destruct (parameter_fragment_markers pairPatternParam plainParam [])
    as [_ [Hinit _]].
  destruct (parameter_fragment_markers plainParam plainParam [])
    as [_ [Hplain [Hnone [Hunknown _]]]].
  assert (Hi : is_Some (param_initializer pairPatternParam)) by (now exists "{}").
  split; [repeat split; assumption |].
  split; [apply Hopt; now left |].
  split; [apply Hinit; now right |].
  split.
  { apply Hnone. intros H. apply Hplain in H as [H | [x H]]; discriminate. }
  split; [now apply Hunknown |].
  split; [now apply Htype |].
  rewrite Hjoin. reflexivity.
Defined.

(** ** The traversal *)

(** C2, as stated, fails: an import declaration, a child of nearly every
    source file, is dispatched to no emitter, and neither is a class
    declaration without a name. *)
Lemma dispatch_import_no_emitter :
  emittersCalled (NImport (namedImport "react" ["useState"])) = [] /\
  emittersCalled (NClass anonymousClass) = [].
Proof. split; reflexivity. Qed.

(** C2, amended: the callback tries the seven conditions in the order Enum,
    Class, Interface, TypeAlias, Function, Method, VariableStatement and
    calls the emitter of the first one that holds, so a node reaches at most
    one emitter and adds the text of one call at most: the emitter of its
    kind when it is of one of the seven kinds and its name is defined, none
    otherwise. *)
Theorem dispatch_first_match (node : Node) :
  dispatch node = firstMatch priority node
  /\ length (emittersCalled node) <= 1
  /\ emittersCalled node =
       match kindOf node with
       | Some emitter => if named node then [emitter] else []
       | None => []
       end
  /\ forall declarations,
       visit declarations node =
       declarations +:+ match dispatch node with Some (_, text) => text | None => "" end.
Proof.
  repeat apply conj.
  - reflexivity.
  - unfold emittersCalled. destruct (dispatch node) as [[emitter text]|]; simpl; lia.
  - unfold emittersCalled, dispatch, orElse.
    destruct node as [e | c | i | t | f | m | v | i |]; simpl; try reflexivity.
    + destruct (bool_decide _); reflexivity.
    + destruct (bool_decide _); reflexivity.
  - intros declarations. unfold visit.
    destruct (dispatch node) as [[emitter text]|]; [reflexivity | now rewrite append_nil_r].
Qed.

(** ** Import deduplication *)

Lemma has_In (s : list string) (x : string) : has s x = true <-> In x s.
Proof.
  unfold has. rewrite existsb_exists. split.
  - intros [y [Hy E]]. apply String.eqb_eq in E. now subst.
  - intros H. exists x. split; [exact H | apply String.eqb_refl].
Qed.

Lemma has_false (s : list string) (x : string) : has s x = false <-> ~ In x s.
Proof. rewrite <- has_In. destruct (has s x); split; intros; congruence. Qed.

Lemma newBindings_In (elements : list string) :
  forall recorded name,
    In name (newBindings recorded elements) <-> In name elements /\ ~ In name recorded.
Proof.
  induction elements as [|element rest IH]; intros recorded name; simpl.
  - tauto.
  - destruct (has recorded element) eqn:E.
    + apply has_In in E. rewrite IH. split.
      * intros [H1 H2]. auto.
      * intros [[<- | H1] H2]; [contradiction | auto].
    + apply has_false in E. simpl. rewrite IH, in_app_iff. simpl. split.
      * intros [<- | [H1 H2]]; [auto | tauto].
      * intros [[<- | H1] H2]; [auto |].
        destruct (string_dec element name) as [<- | Hne]; [auto | right].
        split; [exact H1 | intros [H | [H | []]]; congruence].
Qed.

Lemma newBindings_NoDup (elements : list string) :
  forall recorded, List.NoDup (newBindings recorded elements).
Proof.
  induction elements as [|element rest IH]; intros recorded; simpl.
  - constructor.
  - destruct (has recorded element); [apply IH |].
    constructor; [| apply IH].
    rewrite newBindings_In, in_app_iff. simpl. tauto.
Qed.

Lemma newSet_newBindings (elements : list string) :
  forall recorded, fold_left add elements recorded = recorded ++ newBindings recorded elements.
Proof.
  induction elements as [|element rest IH]; intros recorded; simpl.
  - now rewrite app_nil_r.
  - unfold add at 2. destruct (has recorded element); [apply IH |].
    rewrite IH. now rewrite <- app_assoc.
Qed.

Lemma recordElement_loop (elements : list string) :
  forall recorded declaration,
    fold_left recordElement elements (recorded, declaration) =
    (recorded ++ newBindings recorded elements,
     moreBindings declaration (newBindings recorded elements)).
Proof.
  induction elements as [|element rest IH]; intros recorded declaration; simpl.
  - now rewrite app_nil_r.
  - unfold add. destruct (has recorded element); simpl; [apply IH |].
    rewrite IH. now rewrite <- app_assoc.
Qed.

Lemma truthy_append (a b : string) : truthy a = true -> truthy (a +:+ b) = true.
Proof. destruct a; [discriminate | reflexivity]. Qed.

Lemma moreBindings_truthy (fresh : list string) :
  forall declaration,
    truthy declaration = true ->
    moreBindings declaration fresh =
    declaration +:+ match fresh with [] => "" | _ => ", " +:+ join ", " fresh end.
Proof.
  induction fresh as [|element rest IH]; intros declaration Ht.
  - simpl. now rewrite append_nil_r.
  - unfold moreBindings. cbn [fold_left]. rewrite Ht.
    fold (moreBindings (declaration +:+ ", " +:+ element) rest).
    rewrite IH by now apply truthy_append.
    destruct rest as [|next rest].
    + now rewrite append_nil_r.
    + rewrite join_cons. now rewrite !append_assoc.
Qed.

Lemma moreBindings_empty (fresh : list string) :
  moreBindings "" fresh =
  match fresh with [] => "" | _ => "import { " +:+ join ", " fresh end.
Proof.
  destruct fresh as [|element rest]; [reflexivity |].
  unfold moreBindings. cbn [fold_left truthy].
  fold (moreBindings ("import { " +:+ element) rest).
  rewrite moreBindings_truthy by reflexivity.
  destruct rest as [|next rest].
  - now rewrite append_nil_r.
  - rewrite join_cons. now rewrite append_assoc.
Qed.

(** One call, on any index: a module specifier that starts with [.] or [/]
    yields the empty string and leaves the index alone; a named import from
    another module path renders all its bindings when the path has no entry,
    and only those its entry does not hold when it has one. *)
Lemma generateTypeImport_step
    (node : ImportDeclaration) (importMap : gmap string (list string))
    (modulePath : string) (elements recorded : list string) :
  import_moduleSpecifier node = Some modulePath ->
  (startsWith modulePath "." = true \/ startsWith modulePath "/" = true ->
     generateTypeImport node importMap = ("", importMap))
  /\ (import_importClause node = Some {| clause_namedBindings := Some (NamedImports elements) |} ->
      modulePath <> "" ->
      startsWith modulePath "." = false ->
      startsWith modulePath "/" = false ->
      (importMap !! modulePath = None ->
         generateTypeImport node importMap =
         ("import {" +:+ join "," (newBindings [] elements) +:+ "} from '" +:+ modulePath
                     +:+ "'" +:+ LF +:+ LF,
          <[modulePath := newBindings [] elements]> importMap))
      /\ (importMap !! modulePath = Some recorded ->
            generateTypeImport node importMap =
            (match newBindings recorded elements with
             | [] => ""
             | fresh => "import { " +:+ join ", " fresh +:+ "} from '" +:+ modulePath
                                    +:+ "'" +:+ LF +:+ LF
             end,
             <[modulePath := recorded ++ newBindings recorded elements]> importMap)))
  /\ (forall name,
        In name (newBindings recorded elements) <-> In name elements /\ ~ In name recorded)
  /\ (forall name, In name (newBindings [] elements) <-> In name elements)
  /\ List.NoDup (newBindings recorded elements).
Proof.
  intros Hspec. repeat apply conj.
  - intros Hrel. unfold generateTypeImport. rewrite Hspec.
    destruct (import_importClause node) as [importClause|]; [| reflexivity].
    destruct Hrel as [-> | ->]; simpl; [now rewrite andb_false_r | now rewrite andb_false_r].
  - intros Hclause Hne Hdot Hslash.
    unfold generateTypeImport. rewrite Hclause, Hspec, Hdot, Hslash.
    apply truthy_true in Hne. rewrite Hne. cbn [andb negb clause_namedBindings].
    split.
    + intros Hnone. rewrite Hnone. unfold newSet, toString.
      rewrite newSet_newBindings. reflexivity.
    + intros Hsome. rewrite Hsome, recordElement_loop, moreBindings_empty.
      destruct (newBindings recorded elements) as [|name fresh]; [reflexivity |].
      rewrite (truthy_append "import { " _ eq_refl). now rewrite append_assoc.
  - apply newBindings_In.
  - intros name. rewrite newBindings_In. simpl. tauto.
  - apply newBindings_NoDup.
Qed.

Lemma newBindings_app (first second : list string) :
  forall recorded,
    newBindings recorded (first ++ second) =
    newBindings recorded first ++ newBindings (recorded ++ newBindings recorded first) second.
Proof.
  induction first as [|element rest IH]; intros recorded; simpl.
  - now rewrite app_nil_r.
  - destruct (has recorded element); [apply IH |].
    simpl. rewrite IH. now rewrite <- app_assoc.
Qed.

(** What one call leaves in the index. *)
Lemma generateTypeImport_records (node : ImportDeclaration)
    (importMap : gmap string (list string)) :
  snd (generateTypeImport node importMap) =
  match request node with
  | Some (modulePath, elements) =>
      let recorded := default [] (importMap !! modulePath) in
      <[modulePath := recorded ++ newBindings recorded elements]> importMap
  | None => importMap
  end.
Proof.
  unfold generateTypeImport, request.
  destruct (import_importClause node) as [importClause|]; [| reflexivity].
  destruct (import_moduleSpecifier node) as [modulePath|]; [| reflexivity].
  destruct (_ && _); [| reflexivity].
  destruct (clause_namedBindings importClause) as [[elements | name]|]; try reflexivity.
  destruct (importMap !! modulePath) as [recorded|]; simpl.
  - rewrite recordElement_loop. reflexivity.
  - unfold newSet. now rewrite newSet_newBindings.
Qed.

Lemma requests_none (modulePath : string) (nodes : list ImportDeclaration) :
  requested modulePath nodes = false -> requests modulePath nodes = [].
Proof.
  induction nodes as [|node rest IH]; [reflexivity |].
  cbn [requested requests].
  destruct (request node) as [[path elements]|]; [| exact IH].
  intros H. apply orb_false_iff in H as [-> H]. now apply IH.
Qed.

(** The entry of a module path after a sequence of calls: the names
    requested from it so far, each once, after those it held before. *)
Lemma importAll_lookup (nodes : list ImportDeclaration) :
  forall (importMap : gmap string (list string)) (modulePath : string),
    snd (importAll nodes importMap) !! modulePath =
    if requested modulePath nodes
    then let recorded := default [] (importMap !! modulePath) in
         Some (recorded ++ newBindings recorded (requests modulePath nodes))
    else importMap !! modulePath.
Proof.
  induction nodes as [|node rest IH]; intros importMap modulePath; [reflexivity |].
  cbn [importAll requested requests].
  pose proof (generateTypeImport_records node importMap) as Hrec.
  destruct (generateTypeImport node importMap) as [line importMap'].
  specialize (IH importMap' modulePath).
  destruct (importAll rest importMap') as [lines importMap''].
  cbn [snd] in *. rewrite IH. subst importMap'.
  destruct (request node) as [[path elements]|]; [| reflexivity].
  destruct (String.eqb_spec path modulePath) as [-> | Hne]; cbn [orb].
  - rewrite lookup_insert_eq. cbn [default].
    destruct (requested modulePath rest) eqn:Hreq.
    + cbv zeta. now rewrite newBindings_app, app_assoc.
    + now rewrite (requests_none _ _ Hreq), app_nil_r.
  - now rewrite lookup_insert_ne.
Qed.



(** ** Further properties of the formatter *)

Lemma appendName_truthy (rest : list string) :
  forall genericTypes,
    truthy genericTypes = true ->
    fold_left (fun genericTypes param =>
                 genericTypes +:+ (if negb (truthy genericTypes) then param else ", " +:+ param))
              rest genericTypes =
    genericTypes +:+ match rest with [] => "" | _ => ", " +:+ join ", " rest end.
Proof.
  induction rest as [|param rest IH]; intros genericTypes Ht.
  - simpl. now rewrite append_nil_r.
  - cbn [fold_left]. rewrite Ht. cbn [negb].
    rewrite IH by now apply truthy_append.
    destruct rest as [|next rest].
    + now rewrite append_nil_r.
    + rewrite join_cons. now rewrite !append_assoc.
Qed.

(** X1: when no type-parameter name is empty, [getGenerics] is the list of
    names joined by a comma and a space, and the angle brackets around it
    appear exactly when there is a type parameter. *)
Theorem getGenerics_join (typeParameters : list string) :
  Forall (fun name => name <> "") typeParameters ->
  getGenerics typeParameters = join ", " typeParameters
  /\ angle (getGenerics typeParameters) =
       match typeParameters with
       | [] => ""
       | _ => "<" +:+ join ", " typeParameters +:+ ">"
       end.
Proof.
  intros Hne.
  assert (Hjoin : getGenerics typeParameters = join ", " typeParameters).
  { unfold getGenerics. destruct typeParameters as [|param rest]; [reflexivity |].
    cbn [fold_left truthy negb]. rewrite append_nil_l.
    apply Forall_cons in Hne as [Hparam _]. apply truthy_true in Hparam.
    rewrite appendName_truthy by exact Hparam.
    destruct rest; [apply append_nil_r | reflexivity]. }
  split; [exact Hjoin |].
  rewrite Hjoin. destruct typeParameters as [|param rest]; [reflexivity |].
  unfold angle.
  assert (Ht : truthy (join ", " (param :: rest)) = true).
  { apply Forall_cons in Hne as [Hparam _]. apply truthy_true in Hparam.
    destruct rest; [exact Hparam | now apply truthy_append]. }
  now rewrite Ht.
Qed.

Lemma getGenerics_join_witness :
  Forall (fun name => name <> "") ["K"; "V"] /\
  getGenerics ["K"; "V"] = "K, V" /\
  angle (getGenerics ["K"; "V"]) = "<K, V>".
Proof.
  assert (H : Forall (fun name : string => name <> "") ["K"; "V"]).
  { repeat constructor; discriminate. }
  destruct (getGenerics_join ["K"; "V"] H) as [H1 H2].
  split; [exact H |]. rewrite H2, H1. split; reflexivity.
Defined.

Lemma lines_empty {A} (render : A -> string) (members : list A) :
  lines render members = "" <-> Forall (fun member => render member = "") members.
Proof.
  induction members as [|member members IH]; simpl.
  - split; [constructor | reflexivity].
  - split.
    + intros H. apply append_empty_inv in H as [H1 H2].
      constructor; [exact H1 | now apply IH].
    + intros H. apply Forall_cons in H as [H1 H2].
      rewrite H1. now apply IH.
Qed.

Lemma lines_app {A} (render : A -> string) (first second : list A) :
  lines render (first ++ second) = lines render first +:+ lines render second.
Proof.
  induction first as [|member first IH]; simpl; [reflexivity |].
  now rewrite IH, append_assoc.
Qed.

(** X2: [getJsDocComment] is empty exactly when every attached block has an
    empty text (in particular when there is none); otherwise it is the
    texts of the blocks, in order, and one line feed. *)
Theorem getJsDocComment_blocks (jsDocs : list JSDoc) :
  (getJsDocComment jsDocs = "" <->
   Forall (fun jsDoc => jsDoc_fullText jsDoc = "") jsDocs)
  /\ (getJsDocComment jsDocs <> "" ->
      getJsDocComment jsDocs = lines jsDoc_fullText jsDocs +:+ LF).
Proof.
  unfold getJsDocComment.
  rewrite (fold_left_lines _ jsDoc_fullText) by reflexivity.
  rewrite append_nil_l. rewrite <- lines_empty.
  destruct (lines jsDoc_fullText jsDocs) as [|c s] eqn:E; simpl.
  - split; [tauto | congruence].
  - split; [| reflexivity]. split; discriminate.
Qed.

(** ** Further properties of the file selector *)

Lemma includes_tail (c : ascii) (s p : string) :
  includes (String c s) p = false -> includes s p = false.
Proof. cbn [includes]. intros H. now apply orb_false_iff in H as [_ H]. Qed.

(** A text that holds the token has a last occurrence of it. *)
Lemma last_token (s : string) :
  includes s "*." = true ->
  exists prefix suffix, s = prefix +:+ "*." +:+ suffix /\ includes suffix "*." = false.
Proof.
  induction s as [|c s IH]; [discriminate |].
  intros H. destruct (includes s "*.") eqn:E.
  - destruct (IH eq_refl) as [prefix [suffix [-> Hno]]].
    exists (String c prefix), suffix. split; [now rewrite append_cons | exact Hno].
  - cbn [includes] in H. rewrite E, orb_false_r in H.
    apply startsWith_token in H as [r [-> ->]].
    exists "", r. split; [reflexivity |]. now apply includes_tail in E.
Qed.

(** X3: the reduction of an include pattern always yields a suffix of the
    pattern that holds no [*.] token; when the pattern holds a token, the
    suffix starts right after one. Reducing twice changes nothing. *)
Theorem patternSuffix_suffix (pattern : string) :
  (exists prefix, pattern = prefix +:+ patternSuffix pattern)
  /\ ~ Occurs "*." (patternSuffix pattern)
  /\ (Occurs "*." pattern -> exists prefix, pattern = prefix +:+ "*." +:+ patternSuffix pattern)
  /\ patternSuffix (patternSuffix pattern) = patternSuffix pattern.
Proof.
  destruct (includes pattern "*.") eqn:E.
  - destruct (last_token _ E) as [prefix [suffix [Hp Hno]]].
    assert (Hs : patternSuffix pattern = suffix).
    { apply patternSuffix_after_last. split; [now exists prefix |].
      now apply includes_false_Occurs. }
    rewrite Hs. apply includes_false_Occurs in Hno. repeat apply conj.
    + exists (prefix +:+ "*."). now rewrite append_assoc.
    + exact Hno.
    + intros _. now exists prefix.
    + now apply patternSuffix_no_token.
  - apply includes_false_Occurs in E.
    rewrite (patternSuffix_no_token _ E). repeat apply conj.
    + now exists "".
    + exact E.
    + intros H. contradiction.
    + now apply patternSuffix_no_token.
Qed.

Lemma find_Some_split {A} (p : A -> bool) (a : list A) (x : A) :
  find p a = Some x <->
  exists before after,
    a = before ++ x :: after /\ p x = true /\ forall y, In y before -> p y = false.
Proof.
  induction a as [|z a IH]; simpl.
  - split; [discriminate | intros [[|? ?] [after [H _]]]; discriminate].
  - destruct (p z) eqn:E.
    + split.
      * intros [= <-]. exists [], a. repeat split; [exact E | intros y []].
      * intros [[|y before] [after [H [Hx Hbefore]]]].
        -- simpl in H. now injection H as ->.
        -- simpl in H. injection H as <- _.
           rewrite (Hbefore z) in E; [discriminate | now left].
    + rewrite IH. split.
      * intros [before [after [-> [Hx Hbefore]]]].
        exists (z :: before), after. repeat split; [exact Hx |].
        intros y [<- | Hy]; [exact E | now apply Hbefore].
      * intros [[|y before] [after [H [Hx Hbefore]]]].
        -- simpl in H. injection H as -> _. congruence.
        -- simpl in H. injection H as _ ->.
           exists before, after. repeat split; [exact Hx |].
           intros w Hw. apply Hbefore. now right.
Qed.

(** X4: a file name passes the filter of [getFiles] exactly when the first
    pattern, in the order of the include list, that occurs in the name is
    not the empty string. *)
Theorem selected_first_pattern (patterns : list string) (fileName : string) :
  selected patterns fileName = true <->
  exists before pattern after,
    patterns = before ++ pattern :: after
    /\ (forall earlier, In earlier before -> ~ Occurs earlier fileName)
    /\ Occurs pattern fileName
    /\ pattern <> "".
Proof.
  unfold selected, truthy_found.
  destruct (find _ patterns) as [x|] eqn:E.
  - apply find_Some_split in E as [before [after [Hp [Hx Hbefore]]]].
    rewrite truthy_true. split.
    + intros Hne. exists before, x, after. repeat apply conj; try assumption.
      * intros earlier Hin. apply includes_false_Occurs. now apply Hbefore.
      * now apply includes_Occurs.
    + intros [before' [pattern [after' [Hp' [Hbefore' [Hocc Hne]]]]]].
      assert (Hfind : find (fun pattern => includes fileName pattern) patterns = Some pattern).
      { apply find_Some_split. exists before', after'. repeat split.
        - exact Hp'.
        - now apply includes_Occurs.
        - intros y Hy. apply includes_false_Occurs. now apply Hbefore'. }
      assert (Hfind' : find (fun pattern => includes fileName pattern) patterns = Some x).
      { apply find_Some_split. exists before, after. auto. }
      congruence.
  - split; [discriminate |].
    intros [before [pattern [after [Hp [_ [Hocc _]]]]]].
    rewrite find_None_all in E. apply includes_Occurs in Hocc.
    rewrite (E pattern) in Hocc; [discriminate |].
    rewrite Hp. apply in_or_app. right. now left.
Qed.

Lemma find_app_Some {A} (p : A -> bool) (a b : list A) (x : A) :
  find p a = Some x -> find p (a ++ b) = Some x.
Proof.
  induction a as [|y a IH]; simpl; [discriminate |].
  destruct (p y); [trivial | exact IH].
Qed.

Lemma filter_sublist_of {A} (p : A -> bool) (l : list A) : sublist (List.filter p l) l.
Proof.
  induction l as [|x l IH]; simpl; [constructor |].
  destruct (p x); [now apply sublist_skip | now apply sublist_cons].
Qed.

(** X5: appending patterns to the include list never drops a file that was
    selected before. *)
Theorem getFiles_more_patterns
    (cwd tsConfigPath : string) (resolve : string -> string -> string)
    (readdirSync : FileSystem -> string -> Result (list string))
    (options : CompilerOptions) (include more : list string) (fs : FileSystem)
    (files : list string) :
  getFiles cwd tsConfigPath resolve readdirSync options (Some include) fs = Ok files ->
  exists files',
    getFiles cwd tsConfigPath resolve readdirSync options (Some (include ++ more)) fs
      = Ok files'
    /\ forall fileName, In fileName files -> In fileName files'.
Proof.
  unfold getFiles.
  destruct (rootDir options) as [root|]; [| discriminate].
  destruct (negb (truthy root)); [discriminate |].
  destruct (readdirSync fs (resolve cwd root)) as [fileNames | e]; [| discriminate].
  intros [= <-]. eexists. split; [reflexivity |].
  intros fileName. rewrite !filter_In. intros [Hin Hsel]. split; [exact Hin |].
  unfold selected in *. rewrite map_app.
  destruct (find _ (map patternSuffix include)) as [x|] eqn:E; [| discriminate].
  now rewrite (find_app_Some _ _ _ _ E).
Qed.

Lemma getFiles_more_patterns_witness :
  getFiles "/proj" "/proj/tsconfig.declaration.json" resolveUnder
    (fun _ _ => Ok readmeListing) readmeOptions (Some ["./src/**/*.entity.ts"]) ∅
    = Ok ["user/user.entity.ts"] /\
  exists files',
    getFiles "/proj" "/proj/tsconfig.declaration.json" resolveUnder
      (fun _ _ => Ok readmeListing) readmeOptions
      (Some (["./src/**/*.entity.ts"] ++ ["./src/**/*.fixtures.ts"])) ∅ = Ok files'
    /\ forall fileName, In fileName ["user/user.entity.ts"] -> In fileName files'.
Proof.
  split; [reflexivity |].
  apply (getFiles_more_patterns "/proj" "/proj/tsconfig.declaration.json" resolveUnder
           (fun _ _ => Ok readmeListing) readmeOptions ["./src/**/*.entity.ts"]
           ["./src/**/*.fixtures.ts"] ∅ ["user/user.entity.ts"]).
  reflexivity.
Defined.

(** X6: when [getFiles] returns, [rootDir] was set to a non-empty string,
    the directory could be listed and the configuration had an include
    list; what it returns are entries of the listing, in the order of the
    listing, each of which passes the filter. *)
Theorem getFiles_returns
    (cwd tsConfigPath : string) (resolve : string -> string -> string)
    (readdirSync : FileSystem -> string -> Result (list string))
    (options : CompilerOptions) (include : option (list string)) (fs : FileSystem)
    (files : list string) :
  getFiles cwd tsConfigPath resolve readdirSync options include fs = Ok files ->
  exists root fileNames patterns,
    rootDir options = Some root /\ root <> ""
    /\ readdirSync fs (resolve cwd root) = Ok fileNames
    /\ include = Some patterns
    /\ sublist files fileNames
    /\ forall fileName,
         In fileName files ->
         selected (map patternSuffix patterns) fileName = true.
Proof.
  unfold getFiles.
  destruct (rootDir options) as [root|]; [| discriminate].
  destruct (truthy root) eqn:Hroot; [| discriminate]. cbn [negb].
  destruct (readdirSync fs (resolve cwd root)) as [fileNames | e] eqn:Hdir;
    [| discriminate].
  destruct include as [patterns|]; [| discriminate].
  intros [= <-]. exists root, fileNames, patterns.
  split; [reflexivity |]. split; [now apply truthy_true |].
  split; [exact Hdir |]. split; [reflexivity |].
  split; [apply filter_sublist_of |].
  intros fileName Hin. now apply filter_In in Hin as [_ Hsel].
Qed.

Lemma getFiles_returns_witness :
  getFiles "/proj" "/proj/tsconfig.declaration.json" resolveUnder
    (fun _ _ => Ok readmeListing) readmeOptions (Some readmeInclude) ∅
    = Ok ["user/user.entity.ts"; "user/user.fixtures.ts"] /\
  exists root fileNames patterns,
    rootDir readmeOptions = Some root /\ root <> ""
    /\ Ok readmeListing = Ok fileNames
    /\ Some readmeInclude = Some patterns
    /\ sublist ["user/user.entity.ts"; "user/user.fixtures.ts"] fileNames
    /\ forall fileName,
         In fileName ["user/user.entity.ts"; "user/user.fixtures.ts"] ->
         selected (map patternSuffix patterns) fileName = true.
Proof.
  split; [reflexivity |].
  apply (getFiles_returns "/proj" "/proj/tsconfig.declaration.json" resolveUnder
           (fun _ _ => Ok readmeListing) readmeOptions (Some readmeInclude) ∅).
  reflexivity.
Defined.

(** ** Further properties of the emitters *)

(** Both sides are the same pieces, differently grouped. *)
Ltac normalize_append :=
  repeat (rewrite append_assoc || rewrite append_nil_l || rewrite append_nil_r);
  reflexivity.

Lemma truthy_append_r (a b : string) : truthy b = true -> truthy (a +:+ b) = true.
Proof. destruct a; [now rewrite append_nil_l | reflexivity]. Qed.

Lemma parameterFragment_truthy (parameter : ParameterDeclaration) :
  truthy (parameterFragment parameter) = true.
Proof.
  unfold parameterFragment. do 3 apply truthy_append_r. now apply truthy_append.
Qed.

(** The signature is empty only for an empty parameter list. *)
Lemma getParametersSignature_truthy (parameters : list ParameterDeclaration) :
  truthy (getParametersSignature parameters) =
  match parameters with [] => false | _ => true end.
Proof.
  unfold getParametersSignature. destruct parameters as [|p [|q rest]]; simpl.
  - reflexivity.
  - apply parameterFragment_truthy.
  - apply truthy_append, parameterFragment_truthy.
Qed.

Lemma generateTypeType_aliasBody (node : TypeAliasDeclaration) :
  generateTypeType node =
  "declare type " +:+ alias_name node +:+ angle (getGenerics (alias_typeParameters node))
    +:+ " = " +:+ aliasBody (alias_type node) +:+ LF +:+ LF.
Proof.
  unfold generateTypeType, aliasBody.
  destruct (alias_type node) as [text parameters returnType | text members | text].
  - rewrite getParametersSignature_truthy.
    destruct returnType as [t ps r | t members | t].
    + destruct parameters; normalize_append.
    + rewrite (fold_left_lines _ returnedMemberLine).
      * destruct parameters; normalize_append.
      * intros acc [p | m |]; simpl; try reflexivity. now rewrite append_nil_r.
    + destruct parameters; normalize_append.
  - rewrite (fold_left_lines _ literalMemberLine); [normalize_append |].
    intros acc [p | m |]; simpl; try reflexivity. now rewrite append_nil_r.
  - normalize_append.
Qed.

(** X7: a type alias is rendered as [declare type], its name, its type
    parameters in angle brackets when it has any, [ = ], a body and an empty
    line. The body is the verbatim text of an ordinary type and the member
    lines in braces of a type literal. Of a function type it is the
    parameter list in parentheses, left out altogether when there is no
    parameter, followed by the member lines only when the return type is a
    type literal: any other return type does not appear. *)
Theorem generateTypeType_body (node : TypeAliasDeclaration) :
  generateTypeType node =
    "declare type " +:+ alias_name node +:+ angle (getGenerics (alias_typeParameters node))
      +:+ " = " +:+ aliasBody (alias_type node) +:+ LF +:+ LF
  /\ forall text text' parameters returnType returnType',
       isTypeLiteralNode returnType = false ->
       isTypeLiteralNode returnType' = false ->
       aliasBody (FunctionTypeNode text parameters returnType) =
       aliasBody (FunctionTypeNode text' parameters returnType').
Proof.
  split; [apply generateTypeType_aliasBody |].
  intros text text' parameters returnType returnType' H H'.
  unfold aliasBody.
  destruct returnType; try discriminate; destruct returnType'; try discriminate;
    reflexivity.
Qed.

Lemma generateTypeType_body_witness :
  isTypeLiteralNode (OtherTypeNode "void") = false /\
  generateTypeType (functionAlias "Handler" [eventParam] "void") =
    "declare type Handler = (event: string)" +:+ LF +:+ LF /\
  generateTypeType (functionAlias "Lookup" [] "Map<string, number>") =
    "declare type Lookup = " +:+ LF +:+ LF.
Proof.
  split; [reflexivity |].
  destruct (generateTypeType_body (functionAlias "Handler" [eventParam] "void")) as [H1 _].
  destruct (generateTypeType_body (functionAlias "Lookup" [] "Map<string, number>"))
    as [H2 _].
  rewrite H1, H2. split; reflexivity.
Defined.

Lemma truthy_not_empty (s : string) : truthy s = true -> s <> "".
Proof. apply truthy_true. Qed.

Lemma generateClassType_truthy (node : ClassDeclaration) (name : string) :
  class_name node = Some name -> truthy (generateClassType node) = true.
Proof. intros H. now rewrite (generateClassType_lines _ _ H). Qed.

Lemma generateTypeFunction_truthy (node : FunctionDeclaration) (name : string) :
  func_name node = Some name -> name <> "" -> truthy (generateTypeFunction node) = true.
Proof.
  intros H Hne. unfold generateTypeFunction. rewrite H.
  apply truthy_true in Hne. now rewrite Hne.
Qed.

Lemma generateVariableDeclarationType_truthy (node : VariableStatement) :
  truthy (generateVariableDeclarationType node) =
  match stmt_modifiers node with
  | DeclareKeyword :: _ => true
  | _ => false
  end.
Proof.
  unfold generateVariableDeclarationType.
  destruct (stmt_modifiers node) as [|[] rest]; try reflexivity.
  apply truthy_append_r. apply truthy_append_r. reflexivity.
Qed.

(** X8: the class emitter returns the empty string exactly for a class
    without a name, and the function emitter exactly for a function without
    a name or with an empty one; a named declaration always yields text,
    also when it has no member and no parameter. *)
Theorem anonymous_declarations_emit_nothing
    (c : ClassDeclaration) (f : FunctionDeclaration) :
  (generateClassType c = "" <-> class_name c = None)
  /\ (generateTypeFunction f = "" <-> func_name f = None \/ func_name f = Some "").
Proof.
  split.
  - destruct (class_name c) as [name|] eqn:E.
    + apply (generateClassType_truthy _ _) in E. apply truthy_true in E.
      split; [contradiction | discriminate].
    + unfold generateClassType. rewrite E. tauto.
  - destruct (func_name f) as [[|ch name]|] eqn:E.
    + unfold generateTypeFunction. rewrite E. simpl. tauto.
    + assert (Hne : String ch name <> "") by discriminate.
      pose proof (generateTypeFunction_truthy _ _ E Hne) as Ht.
      apply truthy_true in Ht. split; [contradiction |].
      intros [H | H]; discriminate.
    + unfold generateTypeFunction. rewrite E. tauto.
Qed.

Lemma emitted_contributes (node : Node) :
  truthy (emitted node) = contributes node.
Proof.
  unfold emitted, dispatch, orElse.
  destruct node as [e | c | i | t | f | m | v | i |]; simpl; try reflexivity.
  - case_bool_decide as H; [| reflexivity].
    destruct H as [name H]. now apply (generateClassType_truthy _ name).
  - now rewrite generateTypeType_aliasBody.
  - case_bool_decide as H.
    + destruct H as [name H]. unfold generateTypeFunction. rewrite H.
      destruct (truthy name); reflexivity.
    + destruct (func_name f) as [name|]; [| reflexivity].
      exfalso. apply H. now exists name.
  - apply generateVariableDeclarationType_truthy.
Qed.

Lemma visit_emitted (declarations : string) (node : Node) :
  visit declarations node = declarations +:+ emitted node.
Proof.
  unfold visit, emitted.
  destruct (dispatch node) as [[emitter text]|]; [reflexivity | now rewrite append_nil_r].
Qed.

(** X9: the declarations of a source file are the texts that its children
    add, in the order of the children, and two runs of children add their
    texts one after the other; the file yields [null] exactly when no child
    is a named class, a function with a non-empty name, an enum, an
    interface, a type alias, a method or a variable statement whose first
    modifier is [declare]. *)
Theorem generateTypeDeclarations_children (sourceFile : SourceFile) :
  (generateTypeDeclarations sourceFile = None <->
   Forall (fun node => contributes node = false) sourceFile)
  /\ (forall declarations,
        generateTypeDeclarations sourceFile = Some declarations ->
        declarations = lines emitted sourceFile /\ declarations <> "")
  /\ (forall more,
        lines emitted (sourceFile ++ more) = lines emitted sourceFile +:+ lines emitted more).
Proof.
  unfold generateTypeDeclarations.
  rewrite (fold_left_lines visit emitted) by apply visit_emitted.
  rewrite append_nil_l. repeat apply conj.
  - destruct (truthy (lines emitted sourceFile)) eqn:E; [discriminate |].
    intros _. apply truthy_false, lines_empty in E.
    eapply Forall_impl; [exact E |]. intros node H. simpl in H.
    rewrite <- emitted_contributes. now apply truthy_false.
  - intros H.
    assert (Hempty : lines emitted sourceFile = "").
    { apply lines_empty. eapply Forall_impl; [exact H |]. intros node Hn. simpl in Hn.
      apply truthy_false. now rewrite emitted_contributes. }
    now rewrite Hempty.
  - intros declarations. destruct (truthy (lines emitted sourceFile)) eqn:E; [| discriminate].
    intros [= <-]. split; [reflexivity | now apply truthy_true].
  - intros more. apply lines_app.
Qed.

(** ** Further properties of the import index *)

Lemma request_Some (node : ImportDeclaration) (modulePath : string) (elements : list string) :
  request node = Some (modulePath, elements) ->
  import_moduleSpecifier node = Some modulePath
  /\ import_importClause node = Some {| clause_namedBindings := Some (NamedImports elements) |}
  /\ modulePath <> ""
  /\ startsWith modulePath "." = false
  /\ startsWith modulePath "/" = false.
Proof.
  unfold request.
  destruct (import_importClause node) as [[namedBindings]|]; [| discriminate].
  destruct (import_moduleSpecifier node) as [path|]; [| discriminate].
  destruct (truthy path) eqn:Ht; [| discriminate].
  destruct (startsWith path ".") eqn:Hdot; [discriminate |].
  destruct (startsWith path "/") eqn:Hslash; [discriminate |].
  cbn [andb negb clause_namedBindings].
  destruct namedBindings as [[els | name]|]; try discriminate.
  intros [= -> ->]. repeat split; try assumption. now apply truthy_true.
Qed.

Lemma request_None (node : ImportDeclaration) (importMap : gmap string (list string)) :
  request node = None -> generateTypeImport node importMap = ("", importMap).
Proof.
  unfold request, generateTypeImport.
  destruct (import_importClause node) as [importClause|]; [| reflexivity].
  destruct (import_moduleSpecifier node) as [path|]; [| reflexivity].
  destruct (_ && _); [| reflexivity].
  destruct (clause_namedBindings importClause) as [[els | name]|]; try reflexivity.
  discriminate.
Qed.

Lemma newBindings_covered (elements : list string) :
  forall recorded,
    (forall name, In name elements -> In name recorded) ->
    newBindings recorded elements = [].
Proof.
  induction elements as [|element rest IH]; intros recorded H; [reflexivity |].
  simpl. assert (Hhas : has recorded element = true).
  { apply has_In, H. now left. }
  rewrite Hhas. apply IH. intros name Hn. apply H. now right.
Qed.

(** X10: a call of [generateTypeImport] that repeats the import declaration
    of the call before it returns the empty string and leaves the index as
    it is. *)
Theorem generateTypeImport_repeated
    (node : ImportDeclaration) (importMap : gmap string (list string)) :
  generateTypeImport node (snd (generateTypeImport node importMap)) =
  ("", snd (generateTypeImport node importMap)).
Proof.
  rewrite generateTypeImport_records.
  destruct (request node) as [[modulePath elements]|] eqn:E.
  - cbv zeta. set (recorded := default [] (importMap !! modulePath)).
    set (after := recorded ++ newBindings recorded elements).
    destruct (request_Some _ _ _ E) as [Hspec [Hclause [Hne [Hdot Hslash]]]].
    destruct (generateTypeImport_step node (<[modulePath := after]> importMap)
                modulePath elements after Hspec) as [_ [Hnamed _]].
    destruct (Hnamed Hclause Hne Hdot Hslash) as [_ Hlater].
    rewrite Hlater by apply lookup_insert_eq.
    assert (Hnone : newBindings after elements = []).
    { apply newBindings_covered. intros name Hin. unfold after.
      apply in_or_app. destruct (has recorded name) eqn:Hhas.
      - left. now apply has_In.
      - right. apply newBindings_In. split; [exact Hin | now apply has_false]. }
    rewrite Hnone, app_nil_r. now rewrite insert_insert_eq.
  - now apply request_None.
Qed.

Lemma requested_path (modulePath : string) (nodes : list ImportDeclaration) :
  requested modulePath nodes = true ->
  modulePath <> "" /\ startsWith modulePath "." = false /\ startsWith modulePath "/" = false.
Proof.
  induction nodes as [|node rest IH]; [discriminate |].
  cbn [requested]. destruct (request node) as [[path elements]|] eqn:E; [| exact IH].
  intros H. apply orb_true_iff in H as [H | H]; [| now apply IH].
  apply String.eqb_eq in H as ->.
  destruct (request_Some _ _ _ E) as [_ [_ H]]. exact H.
Qed.

(** X11: along any sequence of calls from the empty index, an entry of the
    index is a module path that is not empty and starts with neither [.]
    nor [/], and its set holds, without duplicates, exactly the names that
    the named imports from this path have requested. *)
Theorem importMap_entries
    (nodes : list ImportDeclaration) (modulePath : string) (names : list string) :
  snd (importAll nodes ∅) !! modulePath = Some names ->
  List.NoDup names
  /\ (forall name, In name names <-> In name (requests modulePath nodes))
  /\ modulePath <> ""
  /\ startsWith modulePath "." = false
  /\ startsWith modulePath "/" = false.
Proof.
  rewrite importAll_lookup, lookup_empty. cbn [default].
  destruct (requested modulePath nodes) eqn:E; [| discriminate].
  cbv zeta. rewrite app_nil_l. intros [= <-].
  split; [apply newBindings_NoDup |]. split.
  - intros name. rewrite newBindings_In. simpl. tauto.
  - exact (requested_path _ _ E).
Qed.

Lemma importMap_entries_witness :
  snd (importAll earlierImports ∅) !! "react" = Some ["useState"; "useMemo"] /\
  List.NoDup ["useState"; "useMemo"] /\
  (forall name,
     In name ["useState"; "useMemo"] <-> In name (requests "react" earlierImports)) /\
  snd (importAll earlierImports ∅) !! "./local" = None.
Proof.
  assert (H : snd (importAll earlierImports ∅) !! "react" = Some ["useState"; "useMemo"])
    by reflexivity.
  destruct (importMap_entries earlierImports "react" ["useState"; "useMemo"] H)
    as [Hnodup [Hin _]].
  split; [exact H |]. split; [exact Hnodup |]. split; [exact Hin | reflexivity].
Defined.

(** ** Further properties of the run *)

Section RunWithConfiguration.

Variable cwd : string.
Variable tsConfigPath : string.
Variable resolve : string -> string -> string.
Variable pathJoin : string -> string -> string.
Variable parseConfig : string -> option TsConfig.
Variable readdirSync : FileSystem -> string -> Result (list string).
Variable readSourceFile : FileSystem -> string -> Result SourceFile.

Let run' := run cwd tsConfigPath resolve pathJoin parseConfig readdirSync readSourceFile.
Let generateAll' := generateAll pathJoin readSourceFile.


(** The loop stops at the first file that cannot be read. *)
Lemma generateAll_throws (fs : FileSystem) (root : string)
    (sources : string -> SourceFile) (before after : list string) (bad : string)
    (e : Exception) :
  forall outputContent,
    (forall file, In file before ->
       readSourceFile fs (pathJoin root file) = Ok (sources file)) ->
    readSourceFile fs (pathJoin root bad) = Throw e ->
    generateAll' fs root (before ++ bad :: after) outputContent = Throw e.
Proof.
  unfold generateAll'.
  induction before as [|file rest IH]; intros outputContent Hread Hbad.
  - cbn [app generateAll]. unfold generateTypeDeclarationFromFile. now rewrite Hbad.
  - cbn [app generateAll]. unfold generateTypeDeclarationFromFile.
    rewrite (Hread file) by now left.
    assert (Hrest : forall f, In f rest ->
              readSourceFile fs (pathJoin root f) = Ok (sources f)).
    { intros f Hf. apply Hread. now right. }
    destruct (generateTypeDeclarations (sources file)); now apply IH.
Qed.

(** X12: whatever [run] does, it changes no path of the file system other
    than the output file named by the configuration. *)
Theorem run_touches_output_only (fs : FileSystem) (p : string) :
  snd (run' fs) !! p <> fs !! p ->
  exists tsConfigOptions options out,
    setTsConfig tsConfigPath parseConfig fs = Some tsConfigOptions
    /\ compilerOptions tsConfigOptions = Some options
    /\ outFile options = Some out
    /\ p = resolve cwd out.
Proof.
  unfold run', run.
  destruct (setTsConfig tsConfigPath parseConfig fs) as [tsConfigOptions|];
    [| intros H; now contradiction H].
  destruct (compilerOptions tsConfigOptions) as [options|] eqn:Hoptions;
    [| intros H; now contradiction H].
  destruct (outFile options) as [out|] eqn:Hout; [| intros H; now contradiction H].
  intros H. exists tsConfigOptions, options, out.
  split; [reflexivity |]. split; [exact Hoptions |]. split; [exact Hout |].
  destruct (decide (p = resolve cwd out)) as [Heq | Hne]; [exact Heq | exfalso].
  apply H. clear H.
  assert (Hstep : forall fs1,
            (if existsSync fs (resolve cwd out) then rmSync fs (resolve cwd out) else Ok fs)
              = Ok fs1 -> fs1 !! p = fs !! p).
  { intros fs1. unfold rmSync.
    destruct (existsSync fs (resolve cwd out)); [| now intros [= <-]].
    destruct (fs !! resolve cwd out) as [[c|]|]; try discriminate.
    intros [= <-]. now apply lookup_delete_ne. }
  destruct (if existsSync fs (resolve cwd out) then _ else _) as [fs1 | e];
    [| reflexivity].
  specialize (Hstep fs1 eq_refl).
  destruct (negb (truthy out)); [exact Hstep |].
  destruct (getFiles _ _ _ _ _ _ fs1) as [files | e]; [| exact Hstep].
  destruct (generateAll _ _ fs1 _ files "") as [outputContent | e]; [| exact Hstep].
  unfold writeFileSync.
  destruct (fs1 !! resolve cwd out) as [[c|]|];
    destruct (fs1 !! dirname (resolve cwd out)) as [[c'|]|]; cbn [snd];
    try exact Hstep; now rewrite lookup_insert_ne.
Qed.

(** X14: when the configuration file is missing, is a directory or does not
    parse, [run] throws a [TypeError] on the undefined configuration, not
    the error of [setTsConfig], and leaves the file system as it is. *)
Theorem run_unreadable_configuration (fs : FileSystem) :
  fs !! tsConfigPath = None \/ fs !! tsConfigPath = Some Directory
  \/ (exists content, fs !! tsConfigPath = Some (File content)
                      /\ parseConfig content = None) ->
  run' fs =
  (Throw (TypeError "Cannot read properties of undefined (reading 'compilerOptions')"), fs).
Proof.
  intros H. unfold run', run.
  assert (Hnone : setTsConfig tsConfigPath parseConfig fs = None).
  { unfold setTsConfig. destruct H as [-> | [-> | [content [-> ->]]]]; reflexivity. }
  now rewrite Hnone.
Qed.

Variable fs : FileSystem.
Variable tsConfigOptions : TsConfig.
Variable options : CompilerOptions.

Hypothesis Hconfig : setTsConfig tsConfigPath parseConfig fs = Some tsConfigOptions.
Hypothesis Hoptions : compilerOptions tsConfigOptions = Some options.

(** What [getFiles] and the loop of [run] throw. *)
Lemma getFiles_throws (include : option (list string)) (fs1 : FileSystem) (e : Exception) :
  getFiles cwd tsConfigPath resolve readdirSync options include fs1 = Throw e ->
  e = rootDirError tsConfigPath
  \/ (exists message, e = TypeError message)
  \/ (exists p, readdirSync fs1 p = Throw e).
Proof.
  unfold getFiles.
  destruct (rootDir options) as [root|]; [| intros [= <-]; now left].
  destruct (negb (truthy root)); [intros [= <-]; now left |].
  destruct (readdirSync fs1 (resolve cwd root)) as [fileNames | e'] eqn:E.
  - destruct include; [discriminate | intros [= <-]]. right. left. eauto.
  - intros [= <-]. right. right. eauto.
Qed.

Lemma generateAll_throws_read (fs1 : FileSystem) (root : string) (files : list string)
    (e : Exception) :
  forall outputContent,
    generateAll' fs1 root files outputContent = Throw e ->
    exists p, readSourceFile fs1 p = Throw e.
Proof.
  unfold generateAll'.
  induction files as [|file rest IH]; intros outputContent; [discriminate |].
  cbn [generateAll]. unfold generateTypeDeclarationFromFile.
  destruct (readSourceFile fs1 (pathJoin root file)) as [sourceFile | e'] eqn:E.
  - destruct (generateTypeDeclarations sourceFile); apply IH.
  - intros [= <-]. eauto.
Qed.

Lemma rootDirError_not_outFileError :
  rootDirError tsConfigPath <> outFileError tsConfigPath.
Proof.
  unfold rootDirError, outFileError. intros H.
  apply (f_equal (fun e => match e with Error m => String.get 9 m | _ => None end)) in H.
  vm_compute in H. discriminate.
Qed.

(** X15: a configuration without [outFile] gets the [TypeError] of
    [path.resolve], not the error that names [outFile]. Unless listing the
    directory or reading a source throws that very error, [run] throws it
    exactly when [outFile] is the empty string and the path it resolves to
    is not a directory; a file at this path is removed first, and a
    directory there makes [rmSync] throw instead. *)
Theorem run_outFile_errors :
  (forall fs1 p, readdirSync fs1 p <> Throw (outFileError tsConfigPath)) ->
  (forall fs1 p, readSourceFile fs1 p <> Throw (outFileError tsConfigPath)) ->
  (outFile options = None -> exists message, run' fs = (Throw (TypeError message), fs))
  /\ (fst (run' fs) = Throw (outFileError tsConfigPath) <->
      outFile options = Some "" /\ fs !! resolve cwd "" <> Some Directory)
  /\ (outFile options = Some "" ->
      run' fs =
      match fs !! resolve cwd "" with
      | Some Directory => (Throw (SystemError "ERR_FS_EISDIR"), fs)
      | _ => (Throw (outFileError tsConfigPath), delete (resolve cwd "") fs)
      end).
Proof.
  intros Hdir Hread.
  assert (Hempty : outFile options = Some "" ->
            run' fs =
            match fs !! resolve cwd "" with
            | Some Directory => (Throw (SystemError "ERR_FS_EISDIR"), fs)
            | _ => (Throw (outFileError tsConfigPath), delete (resolve cwd "") fs)
            end).
  { intros Hout. unfold run', run. rewrite Hconfig, Hoptions, Hout.
    unfold existsSync, rmSync.
    destruct (fs !! resolve cwd "") as [[c|]|] eqn:E.
    - now rewrite bool_decide_eq_true_2 by eauto.
    - now rewrite bool_decide_eq_true_2 by eauto.
    - rewrite bool_decide_eq_false_2 by (intros [x Hx]; discriminate).
      now rewrite delete_id. }
  split; [| split; [| exact Hempty]].
  - intros Hout. unfold run', run. rewrite Hconfig, Hoptions, Hout. eauto.
  - split.
    + destruct (outFile options) as [[|c out]|] eqn:Hout.
      * intros H. split; [reflexivity |]. rewrite (Hempty eq_refl) in H.
        intros E. rewrite E in H. discriminate.
      * unfold run', run. rewrite Hconfig, Hoptions, Hout. intros H. exfalso.
        set (o := resolve cwd (String c out)) in *. unfold rmSync in H.
        destruct (existsSync fs o); [destruct (fs !! o) as [[content|]|] |];
          try discriminate.
        -- cbn [truthy negb] in H.
           destruct (getFiles _ _ _ _ _ _ _) as [files | e] eqn:Hfiles.
           ++ destruct (generateAll _ _ _ _ files "") as [outputContent | e] eqn:Hall.
              ** unfold writeFileSync in H.
                 destruct (delete o fs !! o) as [[c1|]|];
                   destruct (delete o fs !! dirname o) as [[c2|]|]; discriminate.
              ** cbn [fst] in H. injection H as ->.
                 destruct (generateAll_throws_read _ _ _ _ _ Hall) as [p Hp].
                 exact (Hread _ _ Hp).
           ++ cbn [fst] in H. injection H as ->.
              destruct (getFiles_throws _ _ _ Hfiles) as [He | [[m He] | [p Hp]]].
              ** now apply rootDirError_not_outFileError.
              ** discriminate.
              ** exact (Hdir _ _ Hp).
        -- cbn [truthy negb] in H.
           destruct (getFiles _ _ _ _ _ _ _) as [files | e] eqn:Hfiles.
           ++ destruct (generateAll _ _ _ _ files "") as [outputContent | e] eqn:Hall.
              ** unfold writeFileSync in H.
                 destruct (fs !! o) as [[c1|]|];
                   destruct (fs !! dirname o) as [[c2|]|]; discriminate.
              ** cbn [fst] in H. injection H as ->.
                 destruct (generateAll_throws_read _ _ _ _ _ Hall) as [p Hp].
                 exact (Hread _ _ Hp).
           ++ cbn [fst] in H. injection H as ->.
              destruct (getFiles_throws _ _ _ Hfiles) as [He | [[m He] | [p Hp]]].
              ** now apply rootDirError_not_outFileError.
              ** discriminate.
              ** exact (Hdir _ _ Hp).
      * unfold run', run. rewrite Hconfig, Hoptions, Hout. discriminate.
    + intros [Hout Hnot]. rewrite (Hempty Hout).
      destruct (fs !! resolve cwd "") as [[c|]|]; try reflexivity. now contradiction Hnot.
Qed.

Variable out root : string.
Variable listing patterns : list string.

Hypothesis Hout : outFile options = Some out.
Hypothesis Hout_ne : out <> "".
Hypothesis Hfile : fs !! resolve cwd out <> Some Directory.
Hypothesis Hroot : rootDir options = Some root.
Hypothesis Hroot_ne : root <> "".
Hypothesis Hlisting :
  readdirSync (delete (resolve cwd out) fs) (resolve cwd root) = Ok listing.
Hypothesis Hinclude : include tsConfigOptions = Some patterns.

Let files := List.filter (selected (map patternSuffix patterns)) listing.

Lemma run_reaches_loop :
  run' fs =
  match generateAll' (delete (resolve cwd out) fs) root files "" with
  | Throw e => (Throw e, delete (resolve cwd out) fs)
  | Ok outputContent =>
      match writeFileSync (delete (resolve cwd out) fs) (resolve cwd out) outputContent with
      | Throw e => (Throw e, delete (resolve cwd out) fs)
      | Ok written => (Ok tt, written)
      end
  end.
Proof.
  unfold run', generateAll', run. rewrite Hconfig, Hoptions, Hout.
  assert (Hrm : (if existsSync fs (resolve cwd out)
                 then rmSync fs (resolve cwd out) else Ok fs)
                = Ok (delete (resolve cwd out) fs)).
  { unfold existsSync, rmSync.
    destruct (fs !! resolve cwd out) as [[c|]|] eqn:E.
    - now rewrite bool_decide_eq_true_2 by eauto.
    - now contradiction Hfile.
    - rewrite bool_decide_eq_false_2 by (intros [x Hx]; discriminate).
      now rewrite delete_id. }
  rewrite Hrm. apply truthy_true in Hout_ne. rewrite Hout_ne. cbn [negb].
  unfold getFiles. rewrite Hroot. apply truthy_true in Hroot_ne. rewrite Hroot_ne.
  cbn [negb]. rewrite Hlisting, Hinclude. cbn [default]. fold files.
  reflexivity.
Qed.



(** X16: when one of the selected files cannot be read, [run] throws the
    error of that file: the files after it are not read, nothing is
    written, and the output of an earlier run is gone. *)
Theorem run_aborts_on_unreadable_file
    (sources : string -> SourceFile) (before after : list string) (bad : string)
    (e : Exception) :
  files = before ++ bad :: after ->
  (forall file, In file before ->
     readSourceFile (delete (resolve cwd out) fs) (pathJoin root file) = Ok (sources file)) ->
  readSourceFile (delete (resolve cwd out) fs) (pathJoin root bad) = Throw e ->
  run' fs = (Throw e, delete (resolve cwd out) fs).
Proof.
  intros Hfiles Hread Hbad. rewrite run_reaches_loop, Hfiles.
  now rewrite (generateAll_throws _ _ sources before after bad e "" Hread Hbad).
Qed.

End RunWithConfiguration.

Lemma run_touches_output_only_witness :
  snd runNoRoot !! "/proj/types/index.d.ts" <> noRootFs !! "/proj/types/index.d.ts" /\
  exists tsConfigOptions options out,
    setTsConfig "/proj/tsconfig.declaration.json" (fun _ => Some noRootConfig) noRootFs
      = Some tsConfigOptions
    /\ compilerOptions tsConfigOptions = Some options
    /\ outFile options = Some out
    /\ "/proj/types/index.d.ts" = resolveUnder "/proj" out.
Proof.
  assert (H : snd runNoRoot !! "/proj/types/index.d.ts"
              <> noRootFs !! "/proj/types/index.d.ts") by (vm_compute; discriminate).
  split; [exact H |].
  exact (run_touches_output_only "/proj" "/proj/tsconfig.declaration.json" resolveUnder
           resolveUnder (fun _ => Some noRootConfig) (fun _ _ => Ok []) (fun _ _ => Ok [])
           noRootFs "/proj/types/index.d.ts" H).
Defined.

Lemma run_unreadable_configuration_witness :
  (∅ : FileSystem) !! "/proj/tsconfig.declaration.json" = None /\
  run "/proj" "/proj/tsconfig.declaration.json" resolveUnder resolveUnder
      (fun _ => Some readmeConfig) (fun _ _ => Ok readmeListing) readReadme ∅ =
  (Throw (TypeError "Cannot read properties of undefined (reading 'compilerOptions')"), ∅).
Proof.
  split; [reflexivity |].
  apply run_unreadable_configuration. now left.
Defined.

Lemma run_outFile_errors_witness :
  outFile {| rootDir := Some "./src"; outFile := None |} = None /\
  (exists message,
     run "/proj" "/proj/tsconfig.declaration.json" resolveUnder resolveUnder
         (fun _ => Some noOutFileConfig) (fun _ _ => Ok readmeListing) readReadme readmeFs =
     (Throw (TypeError message), readmeFs)) /\
  fst (run "/proj" "/proj/tsconfig.declaration.json" resolveUnder resolveUnder
           (fun _ => Some noOutFileConfig) (fun _ _ => Ok readmeListing) readReadme readmeFs)
    <> Throw (outFileError "/proj/tsconfig.declaration.json").
Proof.
  destruct (run_outFile_errors "/proj" "/proj/tsconfig.declaration.json" resolveUnder
              resolveUnder (fun _ => Some noOutFileConfig) (fun _ _ => Ok readmeListing)
              readReadme readmeFs noOutFileConfig
              {| rootDir := Some "./src"; outFile := None |} eq_refl eq_refl)
    as [Hnone [Hiff _]].
  - intros fs1 p. discriminate.
  - intros fs1 p. discriminate.
  - split; [reflexivity |]. split; [now apply Hnone |].
    intros H. apply Hiff in H as [H _]. discriminate.
Defined.


Lemma run_aborts_on_unreadable_file_witness :
  readBroken (delete "/proj/types/index.d.ts" readmeFs) "./src/user/user.fixtures.ts" =
    Throw (TypeError "Cannot read properties of undefined (reading 'length')") /\
  run "/proj" "/proj/tsconfig.declaration.json" resolveUnder resolveUnder
      (fun _ => Some readmeConfig) (fun _ _ => Ok readmeListing) readBroken readmeFs =
  (Throw (TypeError "Cannot read properties of undefined (reading 'length')"),
   delete "/proj/types/index.d.ts" readmeFs).
Proof.
  split; [reflexivity |].
  assert (Hout : "types/index.d.ts" <> "") by discriminate.
  assert (Hroot : "./src" <> "") by discriminate.
  assert (Hfile : readmeFs !! resolveUnder "/proj" "types/index.d.ts" <> Some Directory)
    by (vm_compute; discriminate).
  assert (Hread : forall file, In file ["user/user.entity.ts"] ->
            readBroken (delete (resolveUnder "/proj" "types/index.d.ts") readmeFs)
                       (resolveUnder "./src" file)
            = Ok (readmeSourceAt (resolveUnder "./src" file))).
  { intros file [<- | []]. reflexivity. }
  exact (run_aborts_on_unreadable_file "/proj" "/proj/tsconfig.declaration.json"
           resolveUnder resolveUnder (fun _ => Some readmeConfig)
           (fun _ _ => Ok readmeListing) readBroken readmeFs readmeConfig readmeOptions
           eq_refl eq_refl "types/index.d.ts" "./src" readmeListing readmeInclude
           eq_refl Hout Hfile eq_refl Hroot eq_refl eq_refl
           (fun file => readmeSourceAt (resolveUnder "./src" file))
           ["user/user.entity.ts"] [] "user/user.fixtures.ts"
           (TypeError "Cannot read properties of undefined (reading 'length')")
           eq_refl Hread eq_refl).
Defined.

(** What a run that returns has done. *)
Lemma run_returns
    (cwd tsConfigPath : string) (resolve pathJoin : string -> string -> string)
    (parseConfig : string -> option TsConfig)
    (readdirSync : FileSystem -> string -> Result (list string))
    (readSourceFile : FileSystem -> string -> Result SourceFile)
    (fs : FileSystem) :
  fst (run cwd tsConfigPath resolve pathJoin parseConfig readdirSync readSourceFile fs)
    = Ok tt ->
  exists tsConfigOptions options out files outputContent,
    setTsConfig tsConfigPath parseConfig fs = Some tsConfigOptions
    /\ compilerOptions tsConfigOptions = Some options
    /\ outFile options = Some out
    /\ truthy out = true
    /\ fs !! resolve cwd out <> Some Directory
    /\ getFiles cwd tsConfigPath resolve readdirSync options (include tsConfigOptions)
         (delete (resolve cwd out) fs) = Ok files
    /\ generateAll pathJoin readSourceFile (delete (resolve cwd out) fs)
         (default "" (rootDir options)) files "" = Ok outputContent
    /\ delete (resolve cwd out) fs !! dirname (resolve cwd out) = Some Directory
    /\ run cwd tsConfigPath resolve pathJoin parseConfig readdirSync readSourceFile fs =
       (Ok tt, <[resolve cwd out := File outputContent]> (delete (resolve cwd out) fs)).
Proof.
  unfold run.
  destruct (setTsConfig tsConfigPath parseConfig fs) as [tsConfigOptions|]; [| discriminate].
  destruct (compilerOptions tsConfigOptions) as [options|] eqn:Hoptions; [| discriminate].
  destruct (outFile options) as [out|] eqn:Hout; [| discriminate].
  set (o := resolve cwd out).
  assert (Hrm : forall fs1,
            (if existsSync fs o then rmSync fs o else Ok fs) = Ok fs1 ->
            fs1 = delete o fs /\ fs !! o <> Some Directory).
  { intros fs1. unfold existsSync, rmSync.
    destruct (fs !! o) as [[c|]|] eqn:E.
    - rewrite bool_decide_eq_true_2 by eauto. intros [= <-]. split; [reflexivity | discriminate].
    - rewrite bool_decide_eq_true_2 by eauto. discriminate.
    - rewrite bool_decide_eq_false_2 by (intros [x Hx]; discriminate).
      intros [= <-]. split; [now rewrite delete_id | discriminate]. }
  destruct (if existsSync fs o then rmSync fs o else Ok fs) as [fs1 | e]; [| discriminate].
  destruct (Hrm fs1 eq_refl) as [-> Hfile].
  destruct (truthy out) eqn:Htruthy; [| discriminate]. cbn [negb].
  destruct (getFiles _ _ _ _ _ _ _) as [files | e] eqn:Hfiles; [| discriminate].
  destruct (generateAll _ _ _ _ files "") as [outputContent | e] eqn:Hall; [| discriminate].
  unfold writeFileSync. rewrite lookup_delete_eq.
  destruct (delete o fs !! dirname o) as [[c|]|] eqn:Hparent; try discriminate.
  intros _. exists tsConfigOptions, options, out, files, outputContent.
  repeat split; try assumption; try reflexivity.
Qed.

(** X17: a run that returns can be repeated: run again on the file system
    it left, where the configuration file reads as before, it does the same
    as the first run and leaves this file system as it is, the output file
    with the same content. *)
Theorem run_idempotent
    (cwd tsConfigPath : string) (resolve pathJoin : string -> string -> string)
    (parseConfig : string -> option TsConfig)
    (readdirSync : FileSystem -> string -> Result (list string))
    (readSourceFile : FileSystem -> string -> Result SourceFile)
    (fs : FileSystem) :
  let run' := run cwd tsConfigPath resolve pathJoin parseConfig readdirSync readSourceFile in
  fst (run' fs) = Ok tt ->
  snd (run' fs) !! tsConfigPath = fs !! tsConfigPath ->
  run' (snd (run' fs)) = run' fs.
Proof.
  intros run' Hok Hsame.
  destruct (run_returns _ _ _ _ _ _ _ _ Hok)
    as (tsConfigOptions & options & out & files & outputContent
        & Hconfig & Hoptions & Hout & Htruthy & Hfile & Hfiles & Hall & Hparent & Hrun).
  fold run' in Hrun. rewrite Hrun in Hsame |- *. cbn [snd] in *.
  set (o := resolve cwd out) in *.
  set (written := <[o := File outputContent]> (delete o fs)) in *.
  assert (Hdelete : delete o written = delete o fs).
  { unfold written. now rewrite delete_insert_eq, delete_delete_eq. }
  unfold run', run.
  assert (Hconfig' : setTsConfig tsConfigPath parseConfig written = Some tsConfigOptions).
  { unfold setTsConfig in *. now rewrite Hsame. }
  rewrite Hconfig', Hoptions, Hout. fold o.
  unfold existsSync, rmSync.
  assert (Hlookup : written !! o = Some (File outputContent))
    by apply lookup_insert_eq.
  rewrite Hlookup, bool_decide_eq_true_2 by eauto.
  rewrite Htruthy. cbn [negb]. rewrite Hdelete, Hfiles, Hall.
  unfold writeFileSync. rewrite lookup_delete_eq, Hparent. reflexivity.
Qed.

Lemma run_idempotent_witness :
  let run' := run "/proj" "/proj/tsconfig.declaration.json" resolveUnder resolveUnder
                  (fun _ => Some readmeConfig) (fun _ _ => Ok readmeListing) readReadme in
  (fst (run' projectFs) = Ok tt /\
   snd (run' projectFs) !! "/proj/tsconfig.declaration.json"
     = projectFs !! "/proj/tsconfig.declaration.json") /\
  run' (snd (run' projectFs)) = run' projectFs.
Proof.
  intros run'.
  assert (Hok : fst (run' projectFs) = Ok tt) by (vm_compute; reflexivity).
  assert (Hsame : snd (run' projectFs) !! "/proj/tsconfig.declaration.json"
                  = projectFs !! "/proj/tsconfig.declaration.json")
    by (vm_compute; reflexivity).
  split; [split; assumption |].
  exact (run_idempotent "/proj" "/proj/tsconfig.declaration.json" resolveUnder resolveUnder
           (fun _ => Some readmeConfig) (fun _ _ => Ok readmeListing) readReadme projectFs
           Hok Hsame).
Defined.

(** X20: [exclude] is read by nothing: two configurations with the same
    [compilerOptions] and [include] make [run] do the same, whatever their
    [exclude] lists are. *)
Theorem run_ignores_exclude
    (cwd tsConfigPath : string) (resolve pathJoin : string -> string -> string)
    (readdirSync : FileSystem -> string -> Result (list string))
    (readSourceFile : FileSystem -> string -> Result SourceFile)
    (fs : FileSystem) (tsConfigOptions tsConfigOptions' : TsConfig) :
  compilerOptions tsConfigOptions = compilerOptions tsConfigOptions' ->
  include tsConfigOptions = include tsConfigOptions' ->
  run cwd tsConfigPath resolve pathJoin (fun _ => Some tsConfigOptions)
      readdirSync readSourceFile fs =
  run cwd tsConfigPath resolve pathJoin (fun _ => Some tsConfigOptions')
      readdirSync readSourceFile fs.
Proof.
  intros Hoptions Hinclude. unfold run, setTsConfig.
  destruct (fs !! tsConfigPath) as [[content|]|]; try reflexivity.
  now rewrite Hoptions, Hinclude.
Qed.

Lemma run_ignores_exclude_witness :
  exclude readmeConfig = Some ["./src/**/*.service.ts"] /\
  run "/proj" "/proj/tsconfig.declaration.json" resolveUnder resolveUnder
      (fun _ => Some readmeConfig) (fun _ _ => Ok readmeListing) readReadme readmeFs =
  run "/proj" "/proj/tsconfig.declaration.json" resolveUnder resolveUnder
      (fun _ => Some {| compilerOptions := Some readmeOptions;
                        include := Some readmeInclude;
                        exclude := Some ["./src/**/*.entity.ts"] |})
      (fun _ _ => Ok readmeListing) readReadme readmeFs.
Proof.
  split; [reflexivity |].
  now apply run_ignores_exclude.
Defined.

Lemma constructor_generics (typeParameters : list string) :
  forall genericTypes,
    fold_left (fun genericTypes param =>
                 genericTypes +:+ (if truthy genericTypes then ", " +:+ param else param))
              typeParameters genericTypes =
    fold_left (fun genericTypes param =>
                 genericTypes +:+ (if negb (truthy genericTypes) then param else ", " +:+ param))
              typeParameters genericTypes.
Proof.
  induction typeParameters as [|param rest IH]; intros genericTypes; [reflexivity |].
  cbn [fold_left]. rewrite <- IH. now destruct (truthy genericTypes).
Qed.

(** X18: a named class is rendered as its header, an empty line, the lines
    of its members in the order of the members and the closing brace, also
    when it has no member; members that are neither property, method nor
    constructor add nothing, and a constructor renders its own type
    parameters the way [getGenerics] renders those of the class. *)
Theorem generateClassType_members
    (node : ClassDeclaration) (name : string) (c : Constructor) :
  class_name node = Some name ->
  generateClassType node =
    "declare class " +:+ name +:+ angle (getGenerics (class_typeParameters node))
      +:+ " {" +:+ LF +:+ LF +:+ lines classMemberLine (class_members node) +:+ "}" +:+ LF
  /\ classMemberLine OtherClassElement = ""
  /\ classMemberLine (ConstructorDeclaration c) =
       "  " +:+ getJsDocComment (ctor_jsDoc c) +:+ "constructor"
            +:+ angle (getGenerics (ctor_typeParameters c))
            +:+ "(" +:+ getParametersSignature (ctor_parameters c) +:+ ")" +:+ LF.
Proof.
  intros Hname. split; [now apply generateClassType_lines |]. split; [reflexivity |].
  unfold classMemberLine, constructorLine, getGenerics.
  now rewrite constructor_generics.
Qed.

Lemma generateClassType_members_witness :
  class_name boxClass = Some "Box" /\
  generateClassType {| class_name := Some "Empty"; class_typeParameters := [];
                       class_members := [OtherClassElement] |} =
    "declare class Empty {" +:+ LF +:+ LF +:+ "}" +:+ LF /\
  classMemberLine (ConstructorDeclaration
                     {| ctor_typeParameters := ["K"; "V"]; ctor_parameters := [eventParam];
                        ctor_jsDoc := [] |}) =
    "  constructor<K, V>(event: string)" +:+ LF.
Proof.
  split; [reflexivity |].
  destruct (generateClassType_members
              {| class_name := Some "Empty"; class_typeParameters := [];
                 class_members := [OtherClassElement] |} "Empty"
              {| ctor_typeParameters := ["K"; "V"]; ctor_parameters := [eventParam];
                 ctor_jsDoc := [] |} eq_refl) as [H1 [_ H3]].
  rewrite H1, H3. split; reflexivity.
Defined.

(** X19: on every enum declaration the enum emitter of the current class
    returns what the emitter of the earlier revision returns, followed by
    one more line feed. *)
Theorem generateTypeEnumeration_revisions (node : EnumDeclaration) :
  generateTypeEnumeration node = IndexTs.generateTypeEnumeration node +:+ LF.
Proof.
  unfold generateTypeEnumeration, IndexTs.generateTypeEnumeration.
  normalize_append.
Qed.
